(** * opencode-plugin-notifications: configuration merge and notification dispatch

    A shallow embedding of [src/internals.ts] and of the two [src/index.ts]
    variants (the self-contained one that asks the host client for the global
    configuration directory, and the later one that imports [./internals]).

    Layout:
    - [Js]: the fragment of JavaScript the plugin relies on (JSON values,
      property reads, [??], [?.], object spread, [JSON.stringify]);
    - the configuration types and [mergeConfig];
    - [Internals] and [Index]: the two variants of [getGlobalConfigDir],
      [ensureGlobalConfig] and [loadConfig];
    - [notify] and the event handler of [NotificationPlugin];
    - the verified properties. *)

From Stdlib Require Import ZArith Ascii.
From stdpp Require Import base option strings pretty list gmap.

Set Warnings "-register-all".

(** ** Completions: a value, or a thrown exception *)

Inductive completion (A : Type) : Type :=
| Normal (a : A)
| Throw.
Arguments Normal {A} a.
Arguments Throw {A}.

#[global] Instance completion_ret : MRet completion := @Normal.
#[global] Instance completion_bind : MBind completion := λ A B f m,
  match m with
  | Normal a => f a
  | Throw => Throw
  end.

(** ** The JavaScript fragment *)

Module Js.

(** A number, by what a program can observe of it without arithmetic:
    whether it is zero (its truthiness), whether it is finite (a literal
    such as 1e999 parses to Infinity), and the text that
    [Number.prototype.toString] gives for it. *)
Record number : Type :=
  { number_is_zero : bool; number_is_finite : bool; number_text : string }.

(** An integer small enough to print as its own digits. *)
Definition integer (z : Z) : number :=
  {| number_is_zero := (z =? 0)%Z; number_is_finite := true; number_text := pretty z |}.

(** What [JSON.parse] produces, plus [undefined], which property reads
    yield.  An object keeps its properties in insertion order.  A string
    is its sequence of one-byte characters. *)
Inductive value : Type :=
| VUndefined
| VNull
| VBool (b : bool)
| VNumber (n : number)
| VString (s : string)
| VArray (items : list value)
| VObject (props : list (string * value)).

Definition nullish (v : value) : bool :=
  match v with
  | VUndefined | VNull => true
  | _ => false
  end.

Definition truthy (v : value) : bool :=
  match v with
  | VUndefined | VNull => false
  | VBool b => b
  | VNumber n => negb (number_is_zero n)
  | VString s => negb (String.eqb s "")
  | VArray _ | VObject _ => true
  end.

(** The value bound to key [k] in a property list; as in [JSON.parse],
    the last binding of a repeated key is the one that counts. *)
Fixpoint own (k : string) (props : list (string * value)) : option value :=
  match props with
  | [] => None
  | (k', v) :: rest =>
      match own k rest with
      | Some w => Some w
      | None => if String.eqb k k' then Some v else None
      end
  end.

(** [o[k] = v] on a property list: an existing key keeps its place, a
    new one goes last.  (JavaScript lists integer-like keys first; the
    order of keys is observed by [JSON.stringify] alone, which the plugin
    applies to the defaults only.) *)
Definition assign (k : string) (v : value) (props : list (string * value))
  : list (string * value) :=
  match own k props with
  | Some _ => map (λ kv, if String.eqb k kv.1 then (kv.1, v) else kv) props
  | None => props ++ [(k, v)]
  end.

(** The own enumerable properties of a value, which is what object spread
    copies and what a read of a data property finds: the properties of an
    object, the indexed elements of an array, the indexed characters of a
    string, and nothing for the other primitives. *)
Definition own_entries (v : value) : list (string * value) :=
  match v with
  | VObject props => props
  | VArray items => imap (λ i x, (pretty i, x)) items
  | VString s =>
      imap (λ i c, (pretty i, VString (String c EmptyString))) (String.list_ascii_of_string s)
  | _ => []
  end.

(** [v[k]]: a TypeError on [null] and [undefined], the own property
    otherwise.  Inherited members ([toString], [length], ...) are left out:
    the plugin reads none of them. *)
Definition get (v : value) (k : string) : completion value :=
  if nullish v then Throw
  else Normal (default VUndefined (own k (own_entries v))).

(** [v?.[k]] *)
Definition get_opt (v : value) (k : string) : completion value :=
  if nullish v then Normal VUndefined else get v k.

(** [a ?? b], where [b] is only evaluated when [a] is nullish. *)
Definition coalesce (a b : completion value) : completion value :=
  x ← a; if nullish x then b else mret x.

(** [{ ...target, ...source }], given the properties collected so far. *)
Definition spread (target : list (string * value)) (source : value)
  : list (string * value) :=
  foldl (λ acc kv, assign kv.1 kv.2 acc) target (own_entries source).

(** [v?.[k]] without the TypeError; used to state properties. *)
Definition prop (v : value) (k : string) : value :=
  default VUndefined (own k (own_entries v)).

Fixpoint at_path (v : value) (path : list string) : value :=
  match path with
  | [] => v
  | k :: rest => at_path (prop v k) rest
  end.

Definition join (sep : string) (parts : list string) : string :=
  match parts with
  | [] => ""
  | p :: rest => foldl (λ acc q, acc +:+ sep +:+ q) p rest
  end.

(** [String(v)], as a template literal applies it.  An array joins the
    texts of its elements, with nothing for [null] and [undefined].  An
    object prints through [Object.prototype.toString] unless it has a
    property named [toString] of its own: a parsed document holds no
    function, so that property is not callable, and the conversion is a
    TypeError. *)
Fixpoint to_string (v : value) {struct v} : completion string :=
  match v with
  | VUndefined => Normal "undefined"
  | VNull => Normal "null"
  | VBool b => Normal (if b then "true" else "false")
  | VNumber n => Normal (number_text n)
  | VString s => Normal s
  | VArray items =>
      parts ←
        (fix each (l : list value) : completion (list string) :=
           match l with
           | [] => Normal []
           | x :: rest =>
               part ← (if nullish x then Normal "" else to_string x);
               parts ← each rest;
               Normal (part :: parts)
           end) items;
      Normal (join "," parts)
  | VObject props =>
      match own "toString" props with
      | Some _ => Throw
      | None => Normal "[object Object]"
      end
  end.

(** *** [JSON.stringify] *)

Definition dquote : ascii := "034"%char.
Definition newline : string := String "010"%char EmptyString.

Definition hex_digit (n : N) : ascii :=
  if decide (n < 10)%N then ascii_of_N (48 + n) else ascii_of_N (87 + n).

Definition escape_char (c : ascii) : string :=
  let n := N_of_ascii c in
  if decide (n = 34)%N then String "\" (String dquote EmptyString)
  else if decide (n = 92)%N then "\\"
  else if decide (n = 8)%N then "\b"
  else if decide (n = 9)%N then "\t"
  else if decide (n = 10)%N then "\n"
  else if decide (n = 12)%N then "\f"
  else if decide (n = 13)%N then "\r"
  else if decide (n < 32)%N then
    "\u00" +:+ String (hex_digit (n `div` 16)) (String (hex_digit (n `mod` 16)) EmptyString)
  else String c EmptyString.

Fixpoint escape (s : string) : string :=
  match s with
  | EmptyString => EmptyString
  | String c rest => escape_char c +:+ escape rest
  end.

Definition quote (s : string) : string :=
  String dquote (escape s) +:+ String dquote EmptyString.

(** The text between the brackets of an array or an object. *)
Definition wrap (opening closing gap indent stepback : string) (parts : list string)
  : string :=
  match parts with
  | [] => opening +:+ closing
  | _ =>
      if String.eqb gap "" then opening +:+ join "," parts +:+ closing
      else opening +:+ newline +:+ indent
             +:+ join ("," +:+ newline +:+ indent) parts
             +:+ newline +:+ stepback +:+ closing
  end.

Definition member (gap key text : string) : string :=
  quote key +:+ (if String.eqb gap "" then ":" else ": ") +:+ text.

(** [None] stands for the [undefined] that [JSON.stringify] returns for a
    value that has no JSON text. *)
Fixpoint serialize (gap indent : string) (v : value) {struct v} : option string :=
  match v with
  | VUndefined => None
  | VNull => Some "null"
  | VBool b => Some (if b then "true" else "false")
  | VNumber n => Some (if number_is_finite n then number_text n else "null")
  | VString s => Some (quote s)
  | VArray items =>
      Some (wrap "[" "]" gap (indent +:+ gap) indent
              ((fix each (l : list value) : list string :=
                  match l with
                  | [] => []
                  | x :: rest =>
                      default "null" (serialize gap (indent +:+ gap) x) :: each rest
                  end) items))
  | VObject props =>
      Some (wrap "{" "}" gap (indent +:+ gap) indent
              ((fix each (l : list (string * value)) : list string :=
                  match l with
                  | [] => []
                  | (k, x) :: rest =>
                      match serialize gap (indent +:+ gap) x with
                      | Some text => member gap k text :: each rest
                      | None => each rest
                      end
                  end) props))
  end.

Fixpoint spaces (n : nat) : string :=
  match n with
  | O => EmptyString
  | S m => String " " (spaces m)
  end.

(** [JSON.stringify(v, null, space)] *)
Definition JSON_stringify (v : value) (space : nat) : option string :=
  serialize (spaces (Nat.min space 10)) "" v.

End Js.
Import Js.

(** ** Configuration *)

Module NotificationEventConfig.
Record t : Type := { enabled : bool; message : string }.
End NotificationEventConfig.

Module NotificationEvents.
Record t : Type :=
  { session_idle : NotificationEventConfig.t;
    permission_updated : NotificationEventConfig.t;
    session_error : NotificationEventConfig.t }.
End NotificationEvents.

Module NotificationConfig.
Record t : Type :=
  { enabled : bool;
    itermIntegrationEnabled : bool;
    events : NotificationEvents.t }.
End NotificationConfig.

Definition DEFAULT_CONFIG : NotificationConfig.t :=
  {| NotificationConfig.enabled := true;
     NotificationConfig.itermIntegrationEnabled := true;
     NotificationConfig.events :=
       {| NotificationEvents.session_idle :=
            {| NotificationEventConfig.enabled := true;
               NotificationEventConfig.message := "Session completed" |};
          NotificationEvents.permission_updated :=
            {| NotificationEventConfig.enabled := true;
               NotificationEventConfig.message := "Permission needed" |};
          NotificationEvents.session_error :=
            {| NotificationEventConfig.enabled := true;
               NotificationEventConfig.message := "Error occurred" |} |} |}.

(** The run-time object behind a typed configuration. *)
Definition event_value (e : NotificationEventConfig.t) : value :=
  VObject [("enabled", VBool (NotificationEventConfig.enabled e));
           ("message", VString (NotificationEventConfig.message e))].

Definition config_value (c : NotificationConfig.t) : value :=
  VObject
    [("enabled", VBool (NotificationConfig.enabled c));
     ("itermIntegrationEnabled", VBool (NotificationConfig.itermIntegrationEnabled c));
     ("events",
      VObject
        [("session.idle",
          event_value (NotificationEvents.session_idle (NotificationConfig.events c)));
         ("permission.updated",
          event_value (NotificationEvents.permission_updated (NotificationConfig.events c)));
         ("session.error",
          event_value (NotificationEvents.session_error (NotificationConfig.events c)))])].

(** [{ ...defaults.events[key], ...user.events?.[key] }] *)
Definition mergeEvent (defaults user : value) (key : string) : completion value :=
  d_events ← get defaults "events";
  d ← get d_events key;
  u_events ← get user "events";
  u ← get_opt u_events key;
  mret (VObject (spread (spread [] d) u)).

(** [mergeConfig], on the values it receives at run time: [user] is
    whatever [file.json()] returned. *)
Definition mergeConfig (defaults user : value) : completion value :=
  enabled ← coalesce (get user "enabled") (get defaults "enabled");
  iterm ← coalesce (get user "itermIntegrationEnabled")
                   (get defaults "itermIntegrationEnabled");
  idle ← mergeEvent defaults user "session.idle";
  permission ← mergeEvent defaults user "permission.updated";
  error ← mergeEvent defaults user "session.error";
  mret (VObject
          [("enabled", enabled);
           ("itermIntegrationEnabled", iterm);
           ("events",
            VObject [("session.idle", idle);
                     ("permission.updated", permission);
                     ("session.error", error)])]).


(** ** Configuration layers, as typed documents

    A layer that respects the declared types: every field is either left
    out or holds a value of its declared type.  [layer_value] is the JSON
    document of such a layer, with left-out fields simply not there. *)

Module EventLayer.
Record t : Type := { enabled : option bool; message : option string }.
End EventLayer.

Module EventsLayer.
Record t : Type :=
  { session_idle : option EventLayer.t;
    permission_updated : option EventLayer.t;
    session_error : option EventLayer.t }.
End EventsLayer.

Module ConfigLayer.
Record t : Type :=
  { enabled : option bool;
    itermIntegrationEnabled : option bool;
    events : option EventsLayer.t }.
End ConfigLayer.

Definition entry {A : Type} (key : string) (enc : A → value) (field : option A)
  : list (string * value) :=
  match field with
  | Some a => [(key, enc a)]
  | None => []
  end.

Definition event_layer_value (l : EventLayer.t) : value :=
  VObject (entry "enabled" VBool (EventLayer.enabled l)
           ++ entry "message" VString (EventLayer.message l)).

Definition events_layer_value (l : EventsLayer.t) : value :=
  VObject (entry "session.idle" event_layer_value (EventsLayer.session_idle l)
           ++ entry "permission.updated" event_layer_value (EventsLayer.permission_updated l)
           ++ entry "session.error" event_layer_value (EventsLayer.session_error l)).

Definition layer_value (l : ConfigLayer.t) : value :=
  VObject (entry "enabled" VBool (ConfigLayer.enabled l)
           ++ entry "itermIntegrationEnabled" VBool (ConfigLayer.itermIntegrationEnabled l)
           ++ entry "events" events_layer_value (ConfigLayer.events l)).

(** The three categories and the eight fields of a configuration. *)
Inductive category : Type := SessionIdle | PermissionUpdated | SessionError.

Definition category_key (c : category) : string :=
  match c with
  | SessionIdle => "session.idle"
  | PermissionUpdated => "permission.updated"
  | SessionError => "session.error"
  end.

Inductive field : Type :=
| Enabled
| ItermIntegrationEnabled
| EventEnabled (c : category)
| EventMessage (c : category).

Definition field_path (f : field) : list string :=
  match f with
  | Enabled => ["enabled"]
  | ItermIntegrationEnabled => ["itermIntegrationEnabled"]
  | EventEnabled c => ["events"; category_key c; "enabled"]
  | EventMessage c => ["events"; category_key c; "message"]
  end.

Definition field_key (f : field) : string :=
  match f with
  | Enabled | EventEnabled _ => "enabled"
  | ItermIntegrationEnabled => "itermIntegrationEnabled"
  | EventMessage _ => "message"
  end.

(** The object a field lives in: the document itself, or one category. *)
Definition field_holder (v : value) (f : field) : value :=
  match f with
  | Enabled | ItermIntegrationEnabled => v
  | EventEnabled c | EventMessage c => at_path v ["events"; category_key c]
  end.

(** [Some x] when the field's key is there in the document, with value [x]. *)
Definition field_entry (v : value) (f : field) : option value :=
  own (field_key f) (own_entries (field_holder v f)).

Definition event_of (c : NotificationConfig.t) (cat : category) : NotificationEventConfig.t :=
  match cat with
  | SessionIdle => NotificationEvents.session_idle (NotificationConfig.events c)
  | PermissionUpdated => NotificationEvents.permission_updated (NotificationConfig.events c)
  | SessionError => NotificationEvents.session_error (NotificationConfig.events c)
  end.

Definition layer_event (l : ConfigLayer.t) (cat : category) : option EventLayer.t :=
  ev ← ConfigLayer.events l;
  match cat with
  | SessionIdle => EventsLayer.session_idle ev
  | PermissionUpdated => EventsLayer.permission_updated ev
  | SessionError => EventsLayer.session_error ev
  end.

(** The merge rule in the words of the specification, on typed layers:
    [result.field = layer.field ?? previous.field], field by field. *)
Definition overlay_event (e : NotificationEventConfig.t) (l : option EventLayer.t)
  : NotificationEventConfig.t :=
  {| NotificationEventConfig.enabled :=
       default (NotificationEventConfig.enabled e) (l ≫= EventLayer.enabled);
     NotificationEventConfig.message :=
       default (NotificationEventConfig.message e) (l ≫= EventLayer.message) |}.

Definition overlay (c : NotificationConfig.t) (l : ConfigLayer.t) : NotificationConfig.t :=
  {| NotificationConfig.enabled :=
       default (NotificationConfig.enabled c) (ConfigLayer.enabled l);
     NotificationConfig.itermIntegrationEnabled :=
       default (NotificationConfig.itermIntegrationEnabled c)
               (ConfigLayer.itermIntegrationEnabled l);
     NotificationConfig.events :=
       {| NotificationEvents.session_idle :=
            overlay_event (event_of c SessionIdle) (layer_event l SessionIdle);
          NotificationEvents.permission_updated :=
            overlay_event (event_of c PermissionUpdated) (layer_event l PermissionUpdated);
          NotificationEvents.session_error :=
            overlay_event (event_of c SessionError) (layer_event l SessionError) |} |}.

(** [merge(merge(defaults, L1), L2)] *)
Definition merge2 (defaults l1 l2 : value) : completion value :=
  c ← mergeConfig defaults l1;
  mergeConfig c l2.

(** ** Programs: state passing with exceptions *)

Definition prog (S A : Type) : Type := S → completion A * S.

#[global] Instance prog_ret {S} : MRet (prog S) := λ A a s, (Normal a, s).
#[global] Instance prog_bind {S} : MBind (prog S) := λ A B f m s,
  match m s with
  | (Normal a, s') => f a s'
  | (Throw, s') => (Throw, s')
  end.

Definition lift {S A} (c : completion A) : prog S A := λ s, (c, s).

(** [try { body } catch { handler }] *)
Definition try_catch {S A} (body handler : prog S A) : prog S A := λ s,
  match body s with
  | (Throw, s') => handler s'
  | done => done
  end.

(** ** The file system that [ensureGlobalConfig] writes to *)

Module Fs.

Record t : Type := { files : gmap string string; dirs : gset string }.

(** How the environment answers the three calls: each may fail.  A
    failing recursive [mkdir] may already have created some of the
    directories on the way, and a failing write may already have created
    the file, leaving it with the bytes written so far (none, for a file
    that was opened and not written to). *)
Inductive mkdir_outcome : Type := MkdirOk | MkdirFails (created : nat).

Inductive write_outcome : Type := WriteOk | WriteFails (written : option nat).

Record faults : Type :=
  { exists_throws : bool;
    mkdir_result : mkdir_outcome;
    write_result : write_outcome }.

Definition no_faults : faults :=
  {| exists_throws := false; mkdir_result := MkdirOk; write_result := WriteOk |}.

(** The first [n] characters of a text. *)
Fixpoint first_bytes (n : nat) (s : string) : string :=
  match n, s with
  | S m, String c rest => String c (first_bytes m rest)
  | _, _ => EmptyString
  end.

(** The directories on the way to [path], shortest first, [path] last. *)
Fixpoint ancestors_from (seen rest : string) : list string :=
  match rest with
  | EmptyString => if String.eqb seen "" then [] else [seen]
  | String c tail =>
      (if Ascii.eqb c "/" && negb (String.eqb seen "") then [seen] else [])
      ++ ancestors_from (seen +:+ String c EmptyString) tail
  end.

Definition ancestors (path : string) : list string := ancestors_from "" path.

(** [Bun.file(path).exists()] *)
Definition file_exists (env : faults) (path : string) : prog t bool := λ fs,
  if exists_throws env then (Throw, fs)
  else (Normal (bool_decide (is_Some (files fs !! path))), fs).

Definition add_dirs (created : list string) (fs : t) : t :=
  {| files := files fs; dirs := dirs fs ∪ list_to_set created |}.

(** [mkdir(dir, { recursive: true })] *)
Definition mkdir_recursive (env : faults) (dir : string) : prog t unit := λ fs,
  match mkdir_result env with
  | MkdirOk => (Normal (), add_dirs (ancestors dir) fs)
  | MkdirFails n => (Throw, add_dirs (take n (ancestors dir)) fs)
  end.

(** [Bun.write(path, content)] *)
Definition write (env : faults) (path content : string) : prog t unit := λ fs,
  match write_result env with
  | WriteOk =>
      (Normal (), {| files := <[path := content]> (files fs); dirs := dirs fs |})
  | WriteFails None => (Throw, fs)
  | WriteFails (Some n) =>
      (Throw, {| files := <[path := first_bytes n content]> (files fs); dirs := dirs fs |})
  end.

End Fs.

(** [JSON.stringify(DEFAULT_CONFIG, null, 2) + '\n'] *)
Definition default_config_text : string :=
  default "undefined" (JSON_stringify (config_value DEFAULT_CONFIG) 2) +:+ newline.

(** ** Reading configuration files *)

(** What [Bun.file(path)] answers for one path. *)
Module BunFile.
Record t : Type := { exists_ : completion bool; json : completion value }.
End BunFile.

(** [Bun.file(path)]; the state records which paths were opened. *)
Definition Bun_file (disk : string → BunFile.t) (path : string)
  : prog (list string) BunFile.t :=
  λ opened, (Normal (disk path), opened ++ [path]).

Definition loadConfigFile (disk : string → BunFile.t) (configPath : string)
  : prog (list string) value :=
  try_catch
    (file ← Bun_file disk configPath;
     found ← lift (BunFile.exists_ file);
     if found : bool then lift (BunFile.json file) else mret VUndefined)
    (mret VUndefined).

(** ** [internals.ts]: the global directory comes from [os.homedir()] *)

Module Internals.

Definition getGlobalConfigDir (homedir : string) : string :=
  homedir +:+ "/.config/opencode".

Definition ensureGlobalConfig (homedir : string) (env : Fs.faults) : prog Fs.t unit :=
  let globalConfigDir := getGlobalConfigDir homedir in
  let globalConfigPath := globalConfigDir +:+ "/notification.json" in
  try_catch
    (found ← Fs.file_exists env globalConfigPath;
     if found : bool then mret ()
     else
       _ ← Fs.mkdir_recursive env globalConfigDir;
       Fs.write env globalConfigPath default_config_text)
    (mret ()).

Definition loadConfig (homedir : string) (disk : string → BunFile.t) (directory : string)
  : prog (list string) value :=
  let globalConfigPath := getGlobalConfigDir homedir +:+ "/notification.json" in
  let projectConfigPath := directory +:+ "/.opencode/notification.json" in
  globalConfig ←
    (if String.eqb globalConfigPath "" then mret VUndefined
     else loadConfigFile disk globalConfigPath);
  projectConfig ← loadConfigFile disk projectConfigPath;
  let config := config_value DEFAULT_CONFIG in
  config ← (if truthy globalConfig then lift (mergeConfig config globalConfig)
            else mret config);
  config ← (if truthy projectConfig then lift (mergeConfig config projectConfig)
            else mret config);
  mret config.

End Internals.

(** ** The host client *)

Module PathInfo.
Record data_t : Type := { config : option string }.
Record t : Type := { data : option data_t }.
End PathInfo.

Module SessionInfo.
Record data_t : Type := { title : option string }.
Record t : Type := { data : option data_t }.
End SessionInfo.

(** [client.path.get()] and [client.session.get({ path: { id } })]: each
    either resolves with a response or rejects. *)
Module Client.
Record t : Type :=
  { path_get : completion PathInfo.t;
    session_get : value → completion SessionInfo.t }.
End Client.

(** ** The self-contained [index.ts]: the global directory comes from the client *)

Module Index.

Definition getGlobalConfigDir (client : Client.t) : completion string :=
  pathInfo ← Client.path_get client;
  mret (default "" (PathInfo.data pathInfo ≫= PathInfo.config)).

Definition ensureGlobalConfig (client : Client.t) (env : Fs.faults) : prog Fs.t unit :=
  globalConfigDir ← lift (getGlobalConfigDir client);
  if String.eqb globalConfigDir "" then mret ()
  else
    let globalConfigPath := globalConfigDir +:+ "/notification.json" in
    try_catch
      (found ← Fs.file_exists env globalConfigPath;
       if found : bool then mret ()
       else
         _ ← Fs.mkdir_recursive env globalConfigDir;
         Fs.write env globalConfigPath default_config_text)
      (mret ()).

Definition loadConfig (client : Client.t) (disk : string → BunFile.t) (directory : string)
  : prog (list string) value :=
  globalConfigDir ← lift (getGlobalConfigDir client);
  let globalConfigPath :=
    if String.eqb globalConfigDir "" then ""
    else globalConfigDir +:+ "/notification.json" in
  let projectConfigPath := directory +:+ "/.opencode/notification.json" in
  globalConfig ←
    (if String.eqb globalConfigPath "" then mret VUndefined
     else loadConfigFile disk globalConfigPath);
  projectConfig ← loadConfigFile disk projectConfigPath;
  let config := config_value DEFAULT_CONFIG in
  config ← (if truthy globalConfig then lift (mergeConfig config globalConfig)
            else mret config);
  config ← (if truthy projectConfig then lift (mergeConfig config projectConfig)
            else mret config);
  mret config.

End Index.

(** ** Emission *)

(** What the handler can touch: the writes made to standard output, oldest
    first, and the session identifiers it asked the client about. *)
Module World.
Record t : Type := { stdout : list string; lookups : list value }.
End World.

(** [process.stdout.write(text)] *)
Definition stdout_write (text : string) : prog World.t unit := λ w,
  (Normal (),
   {| World.stdout := World.stdout w ++ [text]; World.lookups := World.lookups w |}).

(** [await client.session.get({ path: { id } })] *)
Definition client_session_get (client : Client.t) (id : value)
  : prog World.t SessionInfo.t := λ w,
  (Client.session_get client id,
   {| World.stdout := World.stdout w; World.lookups := World.lookups w ++ [id] |}).

Definition ESC : string := String "027"%char EmptyString.
Definition BEL : string := String "007"%char EmptyString.

(** [process.env.TERM_PROGRAM === 'iTerm.app'] *)
Definition isITerm2 (env : gmap string string) : bool :=
  bool_decide (env !! "TERM_PROGRAM" = Some "iTerm.app").

Module NotifyOptions.
Record t : Type :=
  { title : value; message : value; itermIntegrationEnabled : value }.
End NotifyOptions.

Definition notify (env : gmap string string) (options : NotifyOptions.t)
  : prog World.t unit :=
  title ← lift (to_string (NotifyOptions.title options));
  message ← lift (to_string (NotifyOptions.message options));
  let fullMessage := title +:+ " - " +:+ message in
  if truthy (NotifyOptions.itermIntegrationEnabled options) && isITerm2 env
  then stdout_write (ESC +:+ "]9;" +:+ fullMessage +:+ BEL)
  else stdout_write BEL.

(** ** The event handler of [NotificationPlugin] *)

(** An event of the host: its discriminating [type] and its payload
    object, whose properties are free-form. *)
Module Event.
Record t : Type := { type : string; properties : list (string * value) }.
End Event.

(** The title of a resolved lookup, when [response.data?.title] is truthy. *)
Definition response_title (response : SessionInfo.t) : option string :=
  match SessionInfo.data response ≫= SessionInfo.title with
  | Some t => if String.eqb t "" then None else Some t
  | None => None
  end.

(** [event: async ({ event }) => { ... }], closed over [client], the
    process environment and the [config] that [loadConfig] returned. *)
Definition event_handler (client : Client.t) (env : gmap string string)
    (config : value) (event : Event.t) : prog World.t unit :=
  enabled ← lift (get config "enabled");
  if negb (truthy enabled) then mret ()
  else if String.eqb (Event.type event) "session.idle" then
    events ← lift (get config "events");
    eventConfig ← lift (get events "session.idle");
    event_enabled ← lift (get_opt eventConfig "enabled");
    if negb (truthy event_enabled) then mret ()
    else
      sessionID ← lift (get (VObject (Event.properties event)) "sessionID");
      title ←
        try_catch
          (response ← client_session_get client sessionID;
           mret (default "Session" (response_title response)))
          (mret "Session");
      message ← lift (get eventConfig "message");
      message_text ← lift (to_string message);
      iterm ← lift (get config "itermIntegrationEnabled");
      notify env
        {| NotifyOptions.title := VString "OpenCode";
           NotifyOptions.message := VString (message_text +:+ ": " +:+ title);
           NotifyOptions.itermIntegrationEnabled := iterm |}
  else if String.eqb (Event.type event) "permission.updated" then
    events ← lift (get config "events");
    eventConfig ← lift (get events "permission.updated");
    event_enabled ← lift (get_opt eventConfig "enabled");
    if negb (truthy event_enabled) then mret ()
    else
      permissionTitle ←
        lift (coalesce (get (VObject (Event.properties event)) "title") (mret (VString "Unknown")));
      message ← lift (get eventConfig "message");
      message_text ← lift (to_string message);
      title_text ← lift (to_string permissionTitle);
      iterm ← lift (get config "itermIntegrationEnabled");
      notify env
        {| NotifyOptions.title := VString "OpenCode";
           NotifyOptions.message := VString (message_text +:+ ": " +:+ title_text);
           NotifyOptions.itermIntegrationEnabled := iterm |}
  else if String.eqb (Event.type event) "session.error" then
    events ← lift (get config "events");
    eventConfig ← lift (get events "session.error");
    event_enabled ← lift (get_opt eventConfig "enabled");
    if negb (truthy event_enabled) then mret ()
    else
      message ← lift (get eventConfig "message");
      iterm ← lift (get config "itermIntegrationEnabled");
      notify env
        {| NotifyOptions.title := VString "OpenCode";
           NotifyOptions.message := message;
           NotifyOptions.itermIntegrationEnabled := iterm |}
  else mret ().

(** ** Vocabulary of the statements *)

(** The object literal that [mergeConfig] builds once its reads succeed. *)
Definition merged_event (defaults user : value) (key : string) : value :=
  VObject (spread (spread [] (prop (prop defaults "events") key))
                  (prop (prop user "events") key)).

Definition merged (defaults user : value) : value :=
  VObject
    [("enabled",
      if nullish (prop user "enabled") then prop defaults "enabled"
      else prop user "enabled");
     ("itermIntegrationEnabled",
      if nullish (prop user "itermIntegrationEnabled")
      then prop defaults "itermIntegrationEnabled"
      else prop user "itermIntegrationEnabled");
     ("events",
      VObject [("session.idle", merged_event defaults user "session.idle");
               ("permission.updated", merged_event defaults user "permission.updated");
               ("session.error", merged_event defaults user "session.error")])].

(** A value [mergeConfig] can read as its [defaults]: [v.events[key]] does
    not throw. *)
Definition readable_config (v : value) : Prop :=
  nullish v = false ∧ nullish (prop v "events") = false.

(** Layer [l] sets field [f] to the value [x]. *)
Definition sets (l : value) (f : field) (x : value) : Prop :=
  at_path l (field_path f) = x ∧ nullish x = false.

(** Layer [l] says nothing about field [f]. *)
Definition leaves_out (l : value) (f : field) : Prop :=
  field_entry l f = None.

Definition empty_layer : ConfigLayer.t :=
  {| ConfigLayer.enabled := None;
     ConfigLayer.itermIntegrationEnabled := None;
     ConfigLayer.events := None |}.

Definition idle_message_layer (m : string) : ConfigLayer.t :=
  {| ConfigLayer.enabled := None;
     ConfigLayer.itermIntegrationEnabled := None;
     ConfigLayer.events :=
       Some {| EventsLayer.session_idle :=
                 Some {| EventLayer.enabled := None; EventLayer.message := Some m |};
               EventsLayer.permission_updated := None;
               EventsLayer.session_error := None |} |}.

Definition idle_enabled_document (x : value) : value :=
  VObject [("events", VObject [("session.idle", VObject [("enabled", x)])])].

(** No category of the layer sets its message to the empty string. *)
Definition no_empty_message (l : ConfigLayer.t) : Prop :=
  ∀ cat e m,
    layer_event l cat = Some e → EventLayer.message e = Some m → m ≠ "".

(** [c] with the configuration of category [cat] replaced. *)
Definition with_event (c : NotificationConfig.t) (cat : category)
    (e : NotificationEventConfig.t) : NotificationConfig.t :=
  {| NotificationConfig.enabled := NotificationConfig.enabled c;
     NotificationConfig.itermIntegrationEnabled :=
       NotificationConfig.itermIntegrationEnabled c;
     NotificationConfig.events :=
       {| NotificationEvents.session_idle :=
            match cat with SessionIdle => e | _ => event_of c SessionIdle end;
          NotificationEvents.permission_updated :=
            match cat with PermissionUpdated => e | _ => event_of c PermissionUpdated end;
          NotificationEvents.session_error :=
            match cat with SessionError => e | _ => event_of c SessionError end |} |}.

Definition contains (needle text : string) : Prop :=
  ∃ before after, text = before +:+ needle +:+ after.

(** The world after one more write, and after one more lookup. *)
Definition wrote (w : World.t) (text : string) : World.t :=
  {| World.stdout := World.stdout w ++ [text]; World.lookups := World.lookups w |}.

Definition asked (w : World.t) (id : value) : World.t :=
  {| World.stdout := World.stdout w; World.lookups := World.lookups w ++ [id] |}.

(** The lookup resolved, but [response.data?.title] is missing or empty. *)
Definition falsy_title (response : SessionInfo.t) : Prop :=
  match SessionInfo.data response ≫= SessionInfo.title with
  | Some t => t = ""
  | None => True
  end.



(** Sample clients and events. *)
Definition quiet_client : Client.t :=
  {| Client.path_get := Throw; Client.session_get := λ _, Throw |}.

Definition error_event : Event.t :=
  {| Event.type := "session.error"; Event.properties := [] |}.

Definition silent (e : NotificationEventConfig.t) : NotificationEventConfig.t :=
  {| NotificationEventConfig.enabled := false;
     NotificationEventConfig.message := NotificationEventConfig.message e |}.

Definition idle_event : Event.t :=
  {| Event.type := "session.idle"; Event.properties := [("sessionID", VString "s1")] |}.

Definition untitled_client : Client.t :=
  {| Client.path_get := Throw;
     Client.session_get := λ _,
       Normal {| SessionInfo.data := Some {| SessionInfo.title := Some "" |} |} |}.

(** A client that knows no configuration directory, and a disk whose only
    configuration file is the project's. *)
Definition no_config_dir_client : Client.t :=
  {| Client.path_get := Normal {| PathInfo.data := None |};
     Client.session_get := λ _, Throw |}.

Definition only_project_disk (path : string) : BunFile.t :=
  if String.eqb path "/work/.opencode/notification.json"
  then {| BunFile.exists_ := Normal true;
          BunFile.json := Normal (VObject [("enabled", VBool false)]) |}
  else {| BunFile.exists_ := Normal false; BunFile.json := Throw |}.

(** An empty file system, and a client whose configuration directory is
    [/home/u/.config/opencode]. *)
Definition empty_fs : Fs.t := {| Fs.files := ∅; Fs.dirs := ∅ |}.

Definition home_client : Client.t :=
  {| Client.path_get :=
       Normal {| PathInfo.data :=
                   Some {| PathInfo.config := Some "/home/u/.config/opencode" |} |};
     Client.session_get := λ _, Throw |}.

(** Nothing that was on the file system is lost or altered: every file
    keeps its content and every directory stays. *)
Definition preserved (fs fs' : Fs.t) : Prop :=
  (∀ p s, Fs.files fs !! p = Some s → Fs.files fs' !! p = Some s) ∧
  Fs.dirs fs ⊆ Fs.dirs fs'.


(** The document a path contributes when [loadConfigFile] reads it:
    [undefined] unless the file is there and parses. *)
Definition layer_at (disk : string → BunFile.t) (path : string) : value :=
  match BunFile.exists_ (disk path), BunFile.json (disk path) with
  | Normal true, Normal v => v
  | _, _ => VUndefined
  end.

(** One step of the fold in [loadConfig]: [if (layer) config = mergeConfig(config, layer)]. *)
Definition apply_layer (config layer : value) : value :=
  if truthy layer then merged config layer else config.

(** A disk that holds the two given documents and nothing else. *)
Definition two_file_disk (globalPath projectPath : string) (g p : value)
    (path : string) : BunFile.t :=
  if String.eqb path projectPath
  then {| BunFile.exists_ := Normal true; BunFile.json := Normal p |}
  else if String.eqb path globalPath
  then {| BunFile.exists_ := Normal true; BunFile.json := Normal g |}
  else {| BunFile.exists_ := Normal false; BunFile.json := Throw |}.

(** A disk on which every read fails. *)
Definition broken_disk (path : string) : BunFile.t :=
  {| BunFile.exists_ := Throw; BunFile.json := Throw |}.

Definition iterm_off_layer : ConfigLayer.t :=
  {| ConfigLayer.enabled := None;
     ConfigLayer.itermIntegrationEnabled := Some false;
     ConfigLayer.events := None |}.

Definition titled_client (t : string) : Client.t :=
  {| Client.path_get := Throw;
     Client.session_get := λ _,
       Normal {| SessionInfo.data := Some {| SessionInfo.title := Some t |} |} |}.

Definition rejecting_client : Client.t :=
  {| Client.path_get := Throw; Client.session_get := λ _, Throw |}.

Definition permission_event (payload : list (string * value)) : Event.t :=
  {| Event.type := "permission.updated"; Event.properties := payload |}.

Definition iterm_env : gmap string string := {["TERM_PROGRAM" := "iTerm.app"]}.

Definition fresh_world : World.t := {| World.stdout := []; World.lookups := [] |}.

(** The object every configuration is at run time: the three top-level
    keys, and under [events] one object per category. *)
Definition config_shape (e i : value) (o1 o2 o3 : list (string * value)) : value :=
  VObject
    [("enabled", e);
     ("itermIntegrationEnabled", i);
     ("events",
      VObject [("session.idle", VObject o1);
               ("permission.updated", VObject o2);
               ("session.error", VObject o3)])].

(** A file system that already holds one unrelated file. *)
Definition one_file_fs : Fs.t :=
  {| Fs.files := {["/home/u/notes.txt" := "keep me"]}; Fs.dirs := {["/home/u"]} |}.

(** A parsed object that has a property named [toString]: converting it
    to a string is a TypeError. *)
Definition unprintable : value := VObject [("toString", VNumber (integer 1))].

(** * Properties *)

(** ** Property lists *)

Section PropertyLists.

Implicit Types (k : string) (v : value) (props : list (string * value)).

Lemma own_app k props1 props2 :
  own k (props1 ++ props2) =
  match own k props2 with
  | Some v => Some v
  | None => own k props1
  end.
Proof.
  induction props1 as [|[k1 v1] props1 IH]; simpl.
  - by destruct (own k props2).
  - rewrite IH. by destruct (own k props2).
Qed.

Lemma own_overwrite k k' v props :
  own k' (map (λ kv, if String.eqb k kv.1 then (kv.1, v) else kv) props) =
  if String.eqb k' k
  then match own k props with Some _ => Some v | None => None end
  else own k' props.
Proof.
  induction props as [|[k1 v1] props IH]; simpl.
  - by destruct (String.eqb k' k).
  - rewrite IH. clear IH.
    destruct (String.eqb_spec k k1) as [->|Hk1]; simpl.
    + destruct (String.eqb_spec k' k1) as [->|Hk']; simpl.
      * by destruct (own k1 props).
      * by destruct (own k' props).
    + destruct (String.eqb_spec k' k) as [->|Hk]; simpl.
      * destruct (own k props); [done|]. by destruct (String.eqb_spec k k1).
      * done.
Qed.

Lemma own_assign k k' v props :
  own k' (assign k v props) = if String.eqb k' k then Some v else own k' props.
Proof.
  unfold assign. destruct (own k props) as [w|] eqn:Hown.
  - rewrite own_overwrite, Hown. done.
  - rewrite own_app. simpl.
    destruct (String.eqb_spec k' k) as [->|Hk]; [done|].
    by destruct (own k' props).
Qed.

Lemma own_foldl_assign k entries props :
  own k (foldl (λ acc kv, assign kv.1 kv.2 acc) props entries) =
  match own k entries with
  | Some v => Some v
  | None => own k props
  end.
Proof.
  revert props. induction entries as [|[k1 v1] entries IH]; intros props; simpl.
  - done.
  - rewrite IH, own_assign. by destruct (own k entries), (String.eqb k k1).
Qed.

(** Object spread is right-biased by key: what [source] has wins, what it
    lacks is kept from [target]. *)
Lemma own_spread k props source :
  own k (spread props source) =
  match own k (own_entries source) with
  | Some v => Some v
  | None => own k props
  end.
Proof. apply own_foldl_assign. Qed.

Lemma prop_nullish v k : nullish v = true → prop v k = VUndefined.
Proof. by destruct v. Qed.

End PropertyLists.

(** ** [mergeConfig] *)

Example mergeConfig_empty :
  mergeConfig (config_value DEFAULT_CONFIG) (VObject []) = Normal (config_value DEFAULT_CONFIG).
Proof. reflexivity. Qed.

Lemma get_prop v k : nullish v = false → get v k = Normal (prop v k).
Proof. unfold get. by intros ->. Qed.

Lemma get_opt_prop v k : get_opt v k = Normal (prop v k).
Proof.
  unfold get_opt. destruct (nullish v) eqn:Hv.
  - by rewrite prop_nullish.
  - by apply get_prop.
Qed.

Lemma mergeEvent_merged defaults user key :
  readable_config defaults → nullish user = false →
  mergeEvent defaults user key = Normal (merged_event defaults user key).
Proof.
  intros [Hd He] Hu. unfold mergeEvent.
  rewrite (get_prop defaults) by done. simpl.
  rewrite (get_prop (prop defaults "events")) by done. simpl.
  rewrite (get_prop user) by done. simpl.
  by rewrite get_opt_prop.
Qed.

Lemma mergeConfig_merged defaults user :
  readable_config defaults → nullish user = false →
  mergeConfig defaults user = Normal (merged defaults user).
Proof.
  intros Hd Hu. unfold mergeConfig, coalesce.
  rewrite !(get_prop user) by done. simpl.
  rewrite !(get_prop defaults) by apply Hd.
  rewrite !mergeEvent_merged by done. unfold merged.
  by destruct (nullish (prop user "enabled")),
              (nullish (prop user "itermIntegrationEnabled")).
Qed.

Lemma merged_readable defaults user : readable_config (merged defaults user).
Proof. by split. Qed.

Lemma config_value_readable c : readable_config (config_value c).
Proof. by split. Qed.

Lemma merge2_merged defaults l1 l2 :
  readable_config defaults → nullish l1 = false → nullish l2 = false →
  merge2 defaults l1 l2 = Normal (merged (merged defaults l1) l2).
Proof.
  intros Hd H1 H2. unfold merge2.
  rewrite mergeConfig_merged by done. simpl.
  apply mergeConfig_merged; [apply merged_readable | done].
Qed.

(** How each field of the result is resolved. *)
Lemma merged_top_level defaults user f :
  match f with Enabled | ItermIntegrationEnabled => True | _ => False end →
  at_path (merged defaults user) (field_path f) =
  if nullish (at_path user (field_path f)) then at_path defaults (field_path f)
  else at_path user (field_path f).
Proof. by destruct f. Qed.

Lemma merged_nested defaults user f :
  match f with EventEnabled _ | EventMessage _ => True | _ => False end →
  at_path (merged defaults user) (field_path f) =
  match field_entry user f with
  | Some x => x
  | None => at_path defaults (field_path f)
  end.
Proof.
  destruct f as [| |cat|cat]; try done; intros _; destruct cat; simpl;
    unfold prop at 1; simpl; unfold field_entry; simpl;
    rewrite !own_spread; simpl.
  all: destruct (own _ (own_entries (prop (prop user "events") _))); [done|].
  all: match goal with
       | |- default _ (match ?o with _ => _ end) = prop ?d ?k =>
           change (prop d k) with (default VUndefined o); by destruct o
       end.
Qed.

Lemma field_value_entry l f :
  at_path l (field_path f) = default VUndefined (field_entry l f).
Proof. by destruct f as [| |[]|[]]. Qed.

(** On typed layers [mergeConfig] computes the field-by-field overlay. *)
Lemma mergeConfig_overlay c l :
  mergeConfig (config_value c) (layer_value l) = Normal (config_value (overlay c l)).
Proof.
  destruct c as [en it [[e1 m1] [e2 m2] [e3 m3]]].
  destruct l as [[a|] [b|] [[[[[x1|] [y1|]]|] [[[x2|] [y2|]]|] [[[x3|] [y3|]]|]]|]];
    reflexivity.
Qed.

Lemma merge2_overlay l1 l2 :
  merge2 (config_value DEFAULT_CONFIG) (layer_value l1) (layer_value l2) =
  Normal (config_value (overlay (overlay DEFAULT_CONFIG l1) l2)).
Proof. unfold merge2. rewrite mergeConfig_overlay. simpl. apply mergeConfig_overlay. Qed.

Lemma overlay_message c l cat :
  NotificationEventConfig.message (event_of (overlay c l) cat) =
  default (NotificationEventConfig.message (event_of c cat))
          (layer_event l cat ≫= EventLayer.message).
Proof. by destruct cat. Qed.

(** C1 (as amended).  Merge totality: for every pair of typed partial
    layers L1 and L2, including the empty layer, merge(merge(DEFAULT_CONFIG,
    L1), L2) returns without throwing and its result is a total
    configuration: the object of a typed [NotificationConfig], hence with
    exactly the three fixed categories and with every field a boolean or a
    string as declared.  Every category's message is non-empty provided no
    layer sets a message to the empty string. *)
Theorem merge_totality (l1 l2 : ConfigLayer.t) :
  ∃ (r : value) (c : NotificationConfig.t),
    merge2 (config_value DEFAULT_CONFIG) (layer_value l1) (layer_value l2) = Normal r ∧
    r = config_value c ∧
    map fst (own_entries (prop r "events")) =
      map category_key [SessionIdle; PermissionUpdated; SessionError] ∧
    (∀ cat, ∃ (b : bool) (m : string),
        own_entries (at_path r ["events"; category_key cat]) =
          [("enabled", VBool b); ("message", VString m)] ∧
        (no_empty_message l1 → no_empty_message l2 → m ≠ "")).
Proof.
  exists (config_value (overlay (overlay DEFAULT_CONFIG l1) l2)),
         (overlay (overlay DEFAULT_CONFIG l1) l2).
  split; [apply merge2_overlay|]. split; [done|]. split; [done|].
  intros cat.
  exists (NotificationEventConfig.enabled
            (event_of (overlay (overlay DEFAULT_CONFIG l1) l2) cat)),
         (NotificationEventConfig.message
            (event_of (overlay (overlay DEFAULT_CONFIG l1) l2) cat)).
  split; [by destruct cat|].
  intros H1 H2. rewrite !overlay_message.
  destruct (layer_event l2 cat) as [e2|] eqn:He2; simpl.
  - destruct (EventLayer.message e2) as [m2|] eqn:Hm2; simpl; [by eapply H2|].
    destruct (layer_event l1 cat) as [e1|] eqn:He1; simpl; [|by destruct cat].
    destruct (EventLayer.message e1) as [m1|] eqn:Hm1; simpl;
      [by eapply H1 | by destruct cat].
  - destruct (layer_event l1 cat) as [e1|] eqn:He1; simpl; [|by destruct cat].
    destruct (EventLayer.message e1) as [m1|] eqn:Hm1; simpl;
      [by eapply H1 | by destruct cat].
Qed.

Lemma idle_message_layer_no_empty m : m ≠ "" → no_empty_message (idle_message_layer m).
Proof.
  intros Hm cat e m'. destruct cat; simpl; [|done..].
  intros [= <-]. simpl. by intros [= <-].
Qed.

Lemma empty_layer_no_empty : no_empty_message empty_layer.
Proof. by intros cat e m. Qed.

Lemma merge_totality_witness :
  ∃ (r : value) (m : string),
    merge2 (config_value DEFAULT_CONFIG)
      (layer_value empty_layer) (layer_value (idle_message_layer "Done")) = Normal r ∧
    own "message" (own_entries (at_path r ["events"; "session.idle"])) = Some (VString m) ∧
    m ≠ "".
Proof.
  destruct (merge_totality empty_layer (idle_message_layer "Done"))
    as (r & c & Hr & _ & _ & Hcat).
  destruct (Hcat SessionIdle) as (b & m & Hm & Hne).
  exists r, m. split; [exact Hr|]. split.
  - simpl in Hm |- *. rewrite Hm. reflexivity.
  - apply Hne; [apply empty_layer_no_empty | by apply idle_message_layer_no_empty].
Defined.

(** C1, as stated, fails: a layer may set a message to the empty string,
    and the merge result then carries the empty message. *)
Lemma merge_totality_empty_message :
  merge2 (config_value DEFAULT_CONFIG)
    (layer_value empty_layer) (layer_value (idle_message_layer "")) =
    Normal (config_value (overlay DEFAULT_CONFIG (idle_message_layer ""))) ∧
  at_path (config_value (overlay DEFAULT_CONFIG (idle_message_layer "")))
          ["events"; "session.idle"; "message"] = VString "".
Proof. split; reflexivity. Qed.

(** C2 (as amended).  Field resolution in [mergeConfig]: the two top-level
    fields are resolved by nullish coalescing (the higher layer's value
    unless it is null or undefined, else the lower layer's); the nested
    [enabled] and [message] of each category are resolved by object spread
    (the higher layer's value whenever the key is there in the higher
    layer's category object, whatever its value, null included, else the
    lower layer's).  So an explicit false or empty string overrides
    everywhere, and null falls through at the top level only. *)
Theorem mergeConfig_field_resolution (lower higher : value) (f : field) :
  readable_config lower → nullish higher = false →
  ∃ r, mergeConfig lower higher = Normal r ∧
       at_path r (field_path f) =
       match f with
       | Enabled | ItermIntegrationEnabled =>
           if nullish (at_path higher (field_path f))
           then at_path lower (field_path f)
           else at_path higher (field_path f)
       | EventEnabled _ | EventMessage _ =>
           match field_entry higher f with
           | Some x => x
           | None => at_path lower (field_path f)
           end
       end.
Proof.
  intros Hl Hh. exists (merged lower higher).
  split; [by apply mergeConfig_merged|].
  destruct f; (by apply merged_top_level) || (by apply merged_nested).
Qed.

Lemma mergeConfig_field_resolution_witness :
  ∃ r, mergeConfig (config_value DEFAULT_CONFIG) (idle_enabled_document (VBool false))
       = Normal r ∧
       at_path r (field_path (EventEnabled SessionIdle)) = VBool false.
Proof.
  apply (mergeConfig_field_resolution (config_value DEFAULT_CONFIG)
           (idle_enabled_document (VBool false)) (EventEnabled SessionIdle)).
  - split; reflexivity.
  - reflexivity.
Defined.

(** C2, as stated, fails on a nested field: a null [enabled] inside a
    category does not fall through to the lower layer's value, it
    replaces it. *)
Lemma null_in_category_does_not_fall_through :
  let lower := config_value DEFAULT_CONFIG in
  let higher := idle_enabled_document VNull in
  let path := field_path (EventEnabled SessionIdle) in
  nullish (at_path higher path) = true ∧
  at_path lower path = VBool true ∧
  ∃ r, mergeConfig lower higher = Normal r ∧ at_path r path = VNull.
Proof. repeat split. by eexists. Qed.

(** C3.  Precedence and fallthrough: for every field f and all documents
    L1 (global) and L2 (project), merge(merge(defaults, L1), L2) returns,
    and if L2 sets f its result holds L2's value of f, whatever the
    defaults and L1 hold for f, while if neither L1 nor L2 has f the result
    holds the defaults' f.  This holds for any defaults of the shape of a
    configuration, the built-in ones in particular. *)
Theorem precedence_and_fallthrough (defaults l1 l2 : value) (f : field) :
  readable_config defaults → nullish l1 = false → nullish l2 = false →
  ∃ r, merge2 defaults l1 l2 = Normal r ∧
       (∀ x, sets l2 f x → at_path r (field_path f) = x) ∧
       (leaves_out l1 f → leaves_out l2 f →
        at_path r (field_path f) = at_path defaults (field_path f)).
Proof.
  intros Hd H1 H2. eexists. split; [by apply merge2_merged|]. split.
  - intros x [Hx Hnn]. destruct f.
    1,2: rewrite merged_top_level by done; by rewrite Hx, Hnn.
    all: rewrite merged_nested by done;
      rewrite field_value_entry in Hx;
      destruct (field_entry l2 _); simpl in Hx; [done | by subst x].
  - unfold leaves_out. intros Ha Hb. destruct f.
    1,2: rewrite !merged_top_level by done;
      by rewrite (field_value_entry l2), (field_value_entry l1), Ha, Hb.
    all: rewrite !merged_nested by done; by rewrite Ha, Hb.
Qed.

Lemma precedence_and_fallthrough_witness :
  ∃ r, merge2 (config_value DEFAULT_CONFIG)
         (VObject [("enabled", VBool true)]) (VObject [("enabled", VBool false)])
       = Normal r ∧
       at_path r (field_path Enabled) = VBool false ∧
       at_path r (field_path (EventMessage SessionError)) = VString "Error occurred".
Proof.
  destruct (precedence_and_fallthrough (config_value DEFAULT_CONFIG)
              (VObject [("enabled", VBool true)]) (VObject [("enabled", VBool false)])
              Enabled (config_value_readable DEFAULT_CONFIG) eq_refl eq_refl)
    as (r & Hr & Hset & _).
  destruct (precedence_and_fallthrough (config_value DEFAULT_CONFIG)
              (VObject [("enabled", VBool true)]) (VObject [("enabled", VBool false)])
              (EventMessage SessionError) (config_value_readable DEFAULT_CONFIG)
              eq_refl eq_refl)
    as (r' & Hr' & _ & Hfall).
  rewrite Hr in Hr'. injection Hr' as <-.
  exists r. split; [exact Hr|]. split.
  - apply Hset. split; reflexivity.
  - rewrite Hfall; reflexivity.
Defined.

(** ** Running programs *)

Lemma append_empty_r (s : string) : s +:+ "" = s.
Proof.
  induction s as [|a s IH]; [done|].
  change (String a (s +:+ "") = String a s). by rewrite IH.
Qed.

Lemma append_assoc (s1 s2 s3 : string) : (s1 +:+ s2) +:+ s3 = s1 +:+ s2 +:+ s3.
Proof.
  induction s1 as [|a s1 IH]; [done|].
  change (String a ((s1 +:+ s2) +:+ s3) = String a (s1 +:+ s2 +:+ s3)). by rewrite IH.
Qed.

Lemma contains_suffix needle before : contains needle (before +:+ needle).
Proof. exists before, "". by rewrite append_empty_r. Qed.

Lemma bind_lift {S A B} (a : A) (k : A → prog S B) : lift (Normal a) ≫= k = k a.
Proof. reflexivity. Qed.

Lemma bind_mret {S A B} (a : A) (k : A → prog S B) : mret a ≫= k = k a.
Proof. reflexivity. Qed.

Lemma bind_run {S A B} (m : prog S A) (k : A → prog S B) s a s' :
  m s = (Normal a, s') → (m ≫= k) s = k a s'.
Proof. unfold mbind, prog_bind. by intros ->. Qed.

Ltac run_reads := repeat (rewrite bind_lift; cbn -[notify]).

(** ** Emission and the event handler *)

Section Handler.

Context (client : Client.t) (env : gmap string string).

Implicit Types (c : NotificationConfig.t) (event : Event.t) (w : World.t).

(** [notify] on a title and a message that are strings. *)
Lemma notify_strings title message flag w :
  notify env
    {| NotifyOptions.title := VString title;
       NotifyOptions.message := VString message;
       NotifyOptions.itermIntegrationEnabled := flag |} w
  = (if truthy flag && isITerm2 env
     then stdout_write (ESC +:+ "]9;" +:+ (title +:+ " - " +:+ message) +:+ BEL)
     else stdout_write BEL) w.
Proof. reflexivity. Qed.

Lemma notify_writes_once title message flag w :
  ∃ text,
    notify env
      {| NotifyOptions.title := VString title;
         NotifyOptions.message := VString message;
         NotifyOptions.itermIntegrationEnabled := flag |} w
    = (Normal (), wrote w text).
Proof. rewrite notify_strings. destruct (_ && _); by eexists. Qed.

Lemma handler_unknown_type c event w :
  Event.type event ≠ "session.idle" →
  Event.type event ≠ "permission.updated" →
  Event.type event ≠ "session.error" →
  event_handler client env (config_value c) event w = (Normal (), w).
Proof.
  intros H1 H2 H3. unfold event_handler.
  apply String.eqb_neq in H1, H2, H3. rewrite H1, H2, H3.
  destruct c as [[] it ev]; reflexivity.
Qed.

Lemma handler_master_switch c event w :
  NotificationConfig.enabled c = false →
  event_handler client env (config_value c) event w = (Normal (), w).
Proof. destruct c as [en it ev]. simpl. by intros ->. Qed.

Lemma handler_category_switch c cat event w :
  NotificationEventConfig.enabled (event_of c cat) = false →
  Event.type event = category_key cat →
  event_handler client env (config_value c) event w = (Normal (), w).
Proof.
  destruct c as [[] it [[e1 m1] [e2 m2] [e3 m3]]], event as [ty ps].
  all: destruct cat; simpl; intros -> ->; reflexivity.
Qed.

Lemma handler_other_category c cat e event w :
  Event.type event ≠ category_key cat →
  event_handler client env (config_value (with_event c cat e)) event w =
  event_handler client env (config_value c) event w.
Proof.
  intros Hty. unfold event_handler.
  destruct (String.eqb_spec (Event.type event) "session.idle") as [Hi|Hi];
    [|destruct (String.eqb_spec (Event.type event) "permission.updated") as [Hp|Hp];
      [|destruct (String.eqb_spec (Event.type event) "session.error") as [He|He]]].
  all: destruct c as [en it [[e1 m1] [e2 m2] [e3 m3]]], e as [e' m'].
  all: destruct cat; simpl in *; try congruence; reflexivity.
Qed.

(** The title block of the session.idle case, when the lookup rejects
    or [response.data?.title] is not truthy. *)
Lemma title_lookup_placeholder id w :
  match Client.session_get client id with
  | Normal response => response_title response = None
  | Throw => True
  end →
  try_catch
    (response ← client_session_get client id;
     mret (default "Session" (response_title response)))
    (mret "Session") w
  = (Normal "Session", asked w id).
Proof.
  unfold try_catch, mbind, prog_bind, client_session_get.
  destruct (Client.session_get client id) as [response|]; [|done].
  by intros ->.
Qed.

(** A session.idle event whose title is unavailable. *)
Lemma handler_idle_placeholder c event w :
  Event.type event = "session.idle" →
  NotificationConfig.enabled c = true →
  NotificationEventConfig.enabled (event_of c SessionIdle) = true →
  match Client.session_get client (prop (VObject (Event.properties event)) "sessionID") with
  | Normal response => response_title response = None
  | Throw => True
  end →
  event_handler client env (config_value c) event w =
  notify env
    {| NotifyOptions.title := VString "OpenCode";
       NotifyOptions.message :=
         VString (NotificationEventConfig.message (event_of c SessionIdle)
                  +:+ ": " +:+ "Session");
       NotifyOptions.itermIntegrationEnabled :=
         VBool (NotificationConfig.itermIntegrationEnabled c) |}
    (asked w (prop (VObject (Event.properties event)) "sessionID")).
Proof.
  destruct c as [en it [[e1 m1] [e2 m2] [e3 m3]]], event as [ty ps].
  simpl. intros -> -> -> Hget.
  unfold event_handler. cbn -[notify]. run_reads.
  erewrite bind_run by (by apply title_lookup_placeholder).
  by run_reads.
Qed.

End Handler.

Lemma falsy_title_no_title response : falsy_title response → response_title response = None.
Proof.
  unfold falsy_title, response_title.
  destruct (SessionInfo.data response ≫= SessionInfo.title) as [t|]; [|done].
  by intros ->.
Qed.

(** C4.  Channel selection: with the flag true and TERM_PROGRAM equal to
    'iTerm.app', [notify] writes exactly ESC ] 9 ; title - message BEL to
    standard output; with the flag false, or TERM_PROGRAM unset or
    different, it writes exactly the single bell byte, whatever the title
    and the message are. *)
Theorem notify_channel_selection (env : gmap string string) (title message : string)
    (flag : bool) (w : World.t) :
  let options :=
    {| NotifyOptions.title := VString title;
       NotifyOptions.message := VString message;
       NotifyOptions.itermIntegrationEnabled := VBool flag |} in
  (flag = true → env !! "TERM_PROGRAM" = Some "iTerm.app" →
   notify env options w =
   (Normal (),
    wrote w (String "027" ("]9;" +:+ title +:+ " - " +:+ message +:+ String "007" "")))) ∧
  (flag = false ∨ env !! "TERM_PROGRAM" ≠ Some "iTerm.app" →
   notify env options w = (Normal (), wrote w (String "007" ""))).
Proof.
  simpl. rewrite notify_strings. unfold isITerm2. simpl. split.
  - intros -> Henv. rewrite bool_decide_eq_true_2 by done. simpl.
    unfold stdout_write, wrote, ESC, BEL. by rewrite !append_assoc.
  - intros [->|Henv]; [done|].
    rewrite bool_decide_eq_false_2 by done. by rewrite andb_false_r.
Qed.

Lemma notify_channel_selection_witness :
  notify {["TERM_PROGRAM" := "iTerm.app"]}
    {| NotifyOptions.title := VString "OpenCode";
       NotifyOptions.message := VString "Session completed: Build";
       NotifyOptions.itermIntegrationEnabled := VBool true |}
    {| World.stdout := []; World.lookups := [] |}
  = (Normal (),
     {| World.stdout :=
          [String "027" ("]9;OpenCode - Session completed: Build" +:+ String "007" "")];
        World.lookups := [] |}).
Proof.
  apply (proj1 (notify_channel_selection {["TERM_PROGRAM" := "iTerm.app"]}
                  "OpenCode" "Session completed: Build" true
                  {| World.stdout := []; World.lookups := [] |})).
  - reflexivity.
  - reflexivity.
Defined.

(** C5.  Gate correctness: with [enabled] false in the effective
    configuration the handler writes nothing (and does nothing else) for
    any event; with a category's [enabled] false it writes nothing for the
    events of that category; and what it does for an event of another
    category does not depend on that category's configuration at all. *)
Theorem gate_correctness (client : Client.t) (env : gmap string string)
    (c : NotificationConfig.t) (event : Event.t) (w : World.t) :
  (NotificationConfig.enabled c = false →
   event_handler client env (config_value c) event w = (Normal (), w)) ∧
  (∀ cat,
     NotificationEventConfig.enabled (event_of c cat) = false →
     Event.type event = category_key cat →
     event_handler client env (config_value c) event w = (Normal (), w)) ∧
  (∀ cat e,
     Event.type event ≠ category_key cat →
     event_handler client env (config_value (with_event c cat e)) event w =
     event_handler client env (config_value c) event w).
Proof.
  split; [apply handler_master_switch|]. split.
  - intros cat Hoff Hty. by eapply handler_category_switch.
  - intros cat e Hty. by apply handler_other_category.
Qed.

Lemma gate_correctness_witness :
  let w := {| World.stdout := []; World.lookups := [] |} in
  let idle_off :=
    with_event DEFAULT_CONFIG SessionIdle (silent (event_of DEFAULT_CONFIG SessionIdle)) in
  let error_off :=
    with_event DEFAULT_CONFIG SessionError (silent (event_of DEFAULT_CONFIG SessionError)) in
  event_handler quiet_client ∅ (config_value error_off) error_event w = (Normal (), w) ∧
  event_handler quiet_client ∅ (config_value idle_off) error_event w =
  (Normal (), wrote w BEL).
Proof.
  intros w idle_off error_off. split.
  - apply (proj1 (proj2 (gate_correctness quiet_client ∅ error_off error_event w))
             SessionError); reflexivity.
  - subst idle_off.
    rewrite (proj2 (proj2 (gate_correctness quiet_client ∅ DEFAULT_CONFIG error_event w))
               SessionIdle); [reflexivity | discriminate].
Defined.

(** C6.  Lookup fallback: for a session.idle event with the plugin and
    the category enabled, when the session lookup rejects, the handler
    returns normally, makes exactly one write to standard output, and the
    message it composes is the category's message followed by the
    placeholder 'Session'. *)
Theorem lookup_fallback (client : Client.t) (env : gmap string string)
    (c : NotificationConfig.t) (event : Event.t) (w : World.t) :
  Event.type event = "session.idle" →
  NotificationConfig.enabled c = true →
  NotificationEventConfig.enabled (event_of c SessionIdle) = true →
  Client.session_get client (prop (VObject (Event.properties event)) "sessionID") = Throw →
  let composed :=
    NotificationEventConfig.message (event_of c SessionIdle) +:+ ": " +:+ "Session" in
  let w' := asked w (prop (VObject (Event.properties event)) "sessionID") in
  contains "Session" composed ∧
  event_handler client env (config_value c) event w =
    notify env
      {| NotifyOptions.title := VString "OpenCode";
         NotifyOptions.message := VString composed;
         NotifyOptions.itermIntegrationEnabled :=
           VBool (NotificationConfig.itermIntegrationEnabled c) |} w' ∧
  ∃ text, event_handler client env (config_value c) event w = (Normal (), wrote w' text).
Proof.
  intros Hty Hen Hcat Hget composed w'.
  assert (Hrun : event_handler client env (config_value c) event w =
                 notify env
                   {| NotifyOptions.title := VString "OpenCode";
                      NotifyOptions.message := VString composed;
                      NotifyOptions.itermIntegrationEnabled :=
                        VBool (NotificationConfig.itermIntegrationEnabled c) |} w').
  { apply handler_idle_placeholder; try done. by rewrite Hget. }
  split; [|split; [exact Hrun|]].
  - unfold composed. rewrite <- append_assoc. apply contains_suffix.
  - rewrite Hrun. apply notify_writes_once.
Qed.

Lemma lookup_fallback_witness :
  ∃ text,
    event_handler quiet_client {["TERM_PROGRAM" := "iTerm.app"]}
      (config_value DEFAULT_CONFIG) idle_event {| World.stdout := []; World.lookups := [] |}
    = (Normal (), {| World.stdout := [text]; World.lookups := [VString "s1"] |}).
Proof.
  apply (lookup_fallback quiet_client {["TERM_PROGRAM" := "iTerm.app"]}
           DEFAULT_CONFIG idle_event {| World.stdout := []; World.lookups := [] |});
    reflexivity.
Defined.

(** C8.  Unknown event categories are a no-op: for an event whose type is
    none of 'session.idle', 'permission.updated' and 'session.error', the
    handler returns normally and leaves standard output and the client
    untouched. *)
Theorem unknown_event_noop (client : Client.t) (env : gmap string string)
    (c : NotificationConfig.t) (event : Event.t) (w : World.t) :
  Event.type event ≠ "session.idle" →
  Event.type event ≠ "permission.updated" →
  Event.type event ≠ "session.error" →
  event_handler client env (config_value c) event w = (Normal (), w).
Proof. apply handler_unknown_type. Qed.

Lemma unknown_event_noop_witness :
  event_handler quiet_client ∅ (config_value DEFAULT_CONFIG)
    {| Event.type := "message.updated"; Event.properties := [] |}
    {| World.stdout := []; World.lookups := [] |}
  = (Normal (), {| World.stdout := []; World.lookups := [] |}).
Proof. apply unknown_event_noop; discriminate. Defined.

(** C10.  For a session.idle event with the plugin and the category
    enabled, when the lookup resolves but its title is missing or is the
    empty string, the handler composes its message with the placeholder
    'Session': an empty title never appears in it. *)
Theorem falsy_title_placeholder (client : Client.t) (env : gmap string string)
    (c : NotificationConfig.t) (event : Event.t) (w : World.t) (response : SessionInfo.t) :
  Event.type event = "session.idle" →
  NotificationConfig.enabled c = true →
  NotificationEventConfig.enabled (event_of c SessionIdle) = true →
  Client.session_get client (prop (VObject (Event.properties event)) "sessionID")
    = Normal response →
  falsy_title response →
  event_handler client env (config_value c) event w =
  notify env
    {| NotifyOptions.title := VString "OpenCode";
       NotifyOptions.message :=
         VString (NotificationEventConfig.message (event_of c SessionIdle)
                  +:+ ": " +:+ "Session");
       NotifyOptions.itermIntegrationEnabled :=
         VBool (NotificationConfig.itermIntegrationEnabled c) |}
    (asked w (prop (VObject (Event.properties event)) "sessionID")).
Proof.
  intros Hty Hen Hcat Hget Hfalsy.
  apply handler_idle_placeholder; try done.
  rewrite Hget. by apply falsy_title_no_title.
Qed.

Lemma falsy_title_placeholder_witness :
  event_handler untitled_client {["TERM_PROGRAM" := "iTerm.app"]}
    (config_value DEFAULT_CONFIG) idle_event {| World.stdout := []; World.lookups := [] |}
  = (Normal (),
     {| World.stdout :=
          [String "027" ("]9;OpenCode - Session completed: Session" +:+ String "007" "")];
        World.lookups := [VString "s1"] |}).
Proof.
  rewrite (falsy_title_placeholder untitled_client {["TERM_PROGRAM" := "iTerm.app"]}
             DEFAULT_CONFIG idle_event {| World.stdout := []; World.lookups := [] |}
             {| SessionInfo.data := Some {| SessionInfo.title := Some "" |} |});
    reflexivity.
Defined.

(** ** Loading the layers *)

Lemma loadConfigFile_opens_one disk path opened :
  ∃ v, loadConfigFile disk path opened = (Normal v, opened ++ [path]).
Proof.
  unfold loadConfigFile, try_catch, mbind, prog_bind, Bun_file, lift. simpl.
  destruct (BunFile.exists_ (disk path)) as [[]|]; simpl; eauto.
  destruct (BunFile.json (disk path)); simpl; eauto.
Qed.

Lemma truthy_not_nullish v : truthy v = true → nullish v = false.
Proof. by destruct v. Qed.

(** [internals.ts] never skips the global layer: its directory is never
    the empty string, whatever [os.homedir()] returns. *)
Lemma Internals_global_dir_not_empty homedir :
  Internals.getGlobalConfigDir homedir +:+ "/notification.json" ≠ "".
Proof. unfold Internals.getGlobalConfigDir. by destruct homedir. Qed.

(** C9.  Empty global directory skips the global layer: when the client
    resolves the global configuration directory to the empty string,
    [loadConfig] opens the project file only, for every project directory,
    and returns the defaults merged with the project layer alone (the
    defaults themselves when there is no usable project layer). *)
Theorem empty_global_dir_skips_global_layer (client : Client.t)
    (disk : string → BunFile.t) (directory : string) (opened : list string) :
  Index.getGlobalConfigDir client = Normal "" →
  let projectConfigPath := directory +:+ "/.opencode/notification.json" in
  ∃ projectConfig config,
    loadConfigFile disk projectConfigPath opened
      = (Normal projectConfig, opened ++ [projectConfigPath]) ∧
    Index.loadConfig client disk directory opened
      = (Normal config, opened ++ [projectConfigPath]) ∧
    (truthy projectConfig = true →
     mergeConfig (config_value DEFAULT_CONFIG) projectConfig = Normal config) ∧
    (truthy projectConfig = false → config = config_value DEFAULT_CONFIG).
Proof.
  intros Hdir projectConfigPath.
  destruct (loadConfigFile_opens_one disk projectConfigPath opened) as [project Hload].
  exists project.
  exists (if truthy project then merged (config_value DEFAULT_CONFIG) project
          else config_value DEFAULT_CONFIG).
  split; [exact Hload|]. split; [|split].
  - unfold Index.loadConfig. rewrite Hdir, bind_lift. simpl.
    rewrite bind_mret. fold projectConfigPath.
    rewrite (bind_run _ _ _ _ _ Hload). simpl. rewrite bind_mret.
    destruct (truthy project) eqn:Hp; [|done].
    rewrite mergeConfig_merged
      by (apply config_value_readable || by apply truthy_not_nullish).
    done.
  - intros Hp. rewrite Hp.
    apply mergeConfig_merged; [apply config_value_readable | by apply truthy_not_nullish].
  - by intros ->.
Qed.

Lemma empty_global_dir_skips_global_layer_witness :
  Index.loadConfig no_config_dir_client only_project_disk "/work" []
  = (Normal (merged (config_value DEFAULT_CONFIG) (VObject [("enabled", VBool false)])),
     ["/work/.opencode/notification.json"]).
Proof.
  destruct (empty_global_dir_skips_global_layer no_config_dir_client only_project_disk
              "/work" [] eq_refl) as (project & config & Hload & Hrun & Hmerge & _).
  rewrite Hrun. injection Hload as <-.
  specialize (Hmerge eq_refl). injection Hmerge as <-. reflexivity.
Defined.

(** X8.  [loadConfig] of [internals.ts] always opens the global file and
    then the project's, in that order and nothing else, whatever the home
    directory is: its guard on an empty global path never fires. *)
Lemma Internals_loadConfig_opens_both homedir disk directory opened :
  (Internals.loadConfig homedir disk directory opened).2 =
  opened ++ [Internals.getGlobalConfigDir homedir +:+ "/notification.json";
             directory +:+ "/.opencode/notification.json"].
Proof.
  unfold Internals.loadConfig.
  destruct (String.eqb_spec
              (Internals.getGlobalConfigDir homedir +:+ "/notification.json") "")
    as [He|_]; [by apply Internals_global_dir_not_empty in He|].
  destruct (loadConfigFile_opens_one disk
              (Internals.getGlobalConfigDir homedir +:+ "/notification.json") opened)
    as [g Hg].
  destruct (loadConfigFile_opens_one disk (directory +:+ "/.opencode/notification.json")
              (opened ++ [Internals.getGlobalConfigDir homedir +:+ "/notification.json"]))
    as [p Hp].
  rewrite (bind_run _ _ _ _ _ Hg), (bind_run _ _ _ _ _ Hp). simpl.
  rewrite <- (assoc_L (++)). simpl.
  destruct (truthy g) eqn:Htg.
  - rewrite mergeConfig_merged
      by (apply config_value_readable || by apply truthy_not_nullish).
    rewrite bind_lift.
    destruct (truthy p) eqn:Htp; [|done].
    rewrite mergeConfig_merged by (apply merged_readable || by apply truthy_not_nullish).
    done.
  - rewrite bind_mret.
    destruct (truthy p) eqn:Htp; [|done].
    rewrite mergeConfig_merged
      by (apply config_value_readable || by apply truthy_not_nullish).
    done.
Qed.

(** ** Bootstrapping the global file *)


Lemma ensure_body_frame env dir fs :
  let fs' :=
    (try_catch
       (found ← Fs.file_exists env (dir +:+ "/notification.json");
        if found : bool then mret ()
        else
          _ ← Fs.mkdir_recursive env dir;
          Fs.write env (dir +:+ "/notification.json") default_config_text)
       (mret ()) fs).2 in
  (∀ p, p ≠ dir +:+ "/notification.json" → Fs.files fs' !! p = Fs.files fs !! p) ∧
  preserved fs fs'.
Proof.
  generalize default_config_text. intros text.
  unfold preserved, try_catch, mbind, prog_bind,
    Fs.file_exists, Fs.mkdir_recursive, Fs.write.
  destruct env as [ex mk wr].
  destruct (Fs.files fs !! (dir +:+ "/notification.json")) as [old|] eqn:Hfile.
  - rewrite bool_decide_eq_true_2 by done.
    destruct ex; simpl; by repeat split.
  - rewrite bool_decide_eq_false_2 by (by intros [? ?]).
    destruct ex, mk as [|n], wr as [|[k|]]; simpl; (split; [|split]).
    all: try (intros p Hp; first [reflexivity | by rewrite lookup_insert_ne]).
    all: try (intros p s Hs;
              first [exact Hs | rewrite lookup_insert_ne; [exact Hs | congruence]]).
    all: first [reflexivity | apply union_subseteq_l].
Qed.





(** * Further properties of the code *)

(** ** [mergeConfig] on arbitrary documents *)

(** X1.  With defaults of configuration shape, [mergeConfig] throws
    exactly when the layer is null or undefined (the read of
    [user.enabled] is a TypeError); on every other document it returns. *)
Theorem mergeConfig_throws_iff_nullish (defaults user : value) :
  readable_config defaults →
  (mergeConfig defaults user = Throw ↔ nullish user = true).
Proof.
  intros Hd. split.
  - destruct (nullish user) eqn:Hu; [done|].
    by rewrite mergeConfig_merged.
  - intros Hu. unfold mergeConfig, coalesce, get. by rewrite Hu.
Qed.

Lemma mergeConfig_throws_iff_nullish_witness :
  mergeConfig (config_value DEFAULT_CONFIG) VNull = Throw.
Proof.
  apply (mergeConfig_throws_iff_nullish (config_value DEFAULT_CONFIG) VNull).
  - apply config_value_readable.
  - reflexivity.
Defined.

(** X2.  Unknown fields are ignored: a document that has none of the keys
    [enabled], [itermIntegrationEnabled] and [events] (an empty object, an
    object of unrelated keys, an array, a string, a number, a boolean)
    leaves a typed configuration exactly as it was. *)
Theorem mergeConfig_ignores_unknown_keys (c : NotificationConfig.t) (user : value) :
  nullish user = false →
  own "enabled" (own_entries user) = None →
  own "itermIntegrationEnabled" (own_entries user) = None →
  own "events" (own_entries user) = None →
  mergeConfig (config_value c) user = Normal (config_value c).
Proof.
  intros Hu He Hi Hev.
  rewrite mergeConfig_merged by (done || apply config_value_readable).
  unfold merged, merged_event, prop. rewrite He, Hi, Hev.
  by destruct c as [en it [[e1 m1] [e2 m2] [e3 m3]]].
Qed.

Lemma mergeConfig_ignores_unknown_keys_witness :
  mergeConfig (config_value DEFAULT_CONFIG)
    (VObject [("theme", VString "dark"); ("volume", VNumber (integer 3))])
  = Normal (config_value DEFAULT_CONFIG) ∧
  mergeConfig (config_value DEFAULT_CONFIG) (VArray [VBool false])
  = Normal (config_value DEFAULT_CONFIG).
Proof.
  split; apply mergeConfig_ignores_unknown_keys; reflexivity.
Defined.

(** X3.  The result of [mergeConfig] has exactly the keys [enabled],
    [itermIntegrationEnabled] and [events], and its [events] exactly the
    three categories, whatever further keys or categories the layer
    carries. *)
Theorem mergeConfig_result_keys (defaults user : value) :
  readable_config defaults → nullish user = false →
  ∃ r, mergeConfig defaults user = Normal r ∧
       map fst (own_entries r) = ["enabled"; "itermIntegrationEnabled"; "events"] ∧
       map fst (own_entries (prop r "events")) =
         ["session.idle"; "permission.updated"; "session.error"].
Proof.
  intros Hd Hu. exists (merged defaults user).
  split; [by apply mergeConfig_merged | by split].
Qed.

Lemma mergeConfig_result_keys_witness :
  ∃ r, mergeConfig (config_value DEFAULT_CONFIG)
         (VObject [("events", VObject [("session.started", VObject [])]);
                   ("theme", VString "dark")]) = Normal r ∧
       map fst (own_entries r) = ["enabled"; "itermIntegrationEnabled"; "events"] ∧
       map fst (own_entries (prop r "events")) =
         ["session.idle"; "permission.updated"; "session.error"].
Proof.
  apply mergeConfig_result_keys; [apply config_value_readable | reflexivity].
Defined.

Lemma merged_category defaults user cat :
  at_path (merged defaults user) ["events"; category_key cat] =
  merged_event defaults user (category_key cat).
Proof. by destruct cat. Qed.

(** X4.  Inside a category nothing is filtered: for every key, the merged
    category holds the layer's value when the layer's category object has
    the key, and the lower configuration's otherwise; keys beyond [enabled]
    and [message] are carried along. *)
Theorem mergeConfig_category_keys (defaults user : value) (cat : category) (k : string) :
  readable_config defaults → nullish user = false →
  ∃ r, mergeConfig defaults user = Normal r ∧
       own k (own_entries (at_path r ["events"; category_key cat])) =
       match own k (own_entries (at_path user ["events"; category_key cat])) with
       | Some x => Some x
       | None => own k (own_entries (at_path defaults ["events"; category_key cat]))
       end.
Proof.
  intros Hd Hu. exists (merged defaults user).
  split; [by apply mergeConfig_merged|].
  rewrite merged_category. unfold merged_event. simpl own_entries.
  rewrite !own_spread. simpl.
  destruct (own k (own_entries (prop (prop user "events") (category_key cat))));
    [done|].
  by destruct (own k (own_entries (prop (prop defaults "events") (category_key cat)))).
Qed.

Lemma mergeConfig_category_keys_witness :
  ∃ r, mergeConfig (config_value DEFAULT_CONFIG)
         (VObject [("events",
                    VObject [("session.error", VObject [("sound", VString "ping")])])])
       = Normal r ∧
       own "sound" (own_entries (at_path r ["events"; "session.error"]))
       = Some (VString "ping").
Proof.
  apply (mergeConfig_category_keys (config_value DEFAULT_CONFIG)
           (VObject [("events",
                      VObject [("session.error", VObject [("sound", VString "ping")])])])
           SessionError "sound");
    [apply config_value_readable | reflexivity].
Defined.

(** X5.  Applying the same typed layer twice is the same as applying it
    once. *)
Theorem mergeConfig_idempotent (c : NotificationConfig.t) (l : ConfigLayer.t) :
  merge2 (config_value c) (layer_value l) (layer_value l) =
  mergeConfig (config_value c) (layer_value l).
Proof.
  unfold merge2. rewrite mergeConfig_overlay. simpl. rewrite mergeConfig_overlay.
  do 2 f_equal.
  destruct c as [en it [[e1 m1] [e2 m2] [e3 m3]]].
  destruct l as [[a|] [b|] [[[[[x1|] [y1|]]|] [[[x2|] [y2|]]|] [[[x3|] [y3|]]|]]|]];
    reflexivity.
Qed.

(** X6.  A complete document replaces everything: merging the document of
    one typed configuration over another yields the former. *)
Theorem mergeConfig_complete_layer_replaces (c c' : NotificationConfig.t) :
  mergeConfig (config_value c) (config_value c') = Normal (config_value c').
Proof.
  destruct c as [en it [[e1 m1] [e2 m2] [e3 m3]]].
  destruct c' as [en' it' [[e1' m1'] [e2' m2'] [e3' m3']]].
  reflexivity.
Qed.

(** ** [loadConfigFile] and [loadConfig] *)

Lemma loadConfigFile_run disk path opened :
  loadConfigFile disk path opened = (Normal (layer_at disk path), opened ++ [path]).
Proof.
  unfold loadConfigFile, layer_at, try_catch, mbind, prog_bind, Bun_file, lift. simpl.
  destruct (BunFile.exists_ (disk path)) as [[]|]; simpl; [|done..].
  by destruct (BunFile.json (disk path)).
Qed.

(** X7.  [loadConfigFile] never throws and opens exactly the path it is
    given.  It returns the parsed document when [exists()] resolves to true
    and [json()] resolves, and [undefined] in every other case: the file is
    missing, or either call fails. *)
Theorem loadConfigFile_outcomes (disk : string → BunFile.t) (path : string)
    (opened : list string) :
  (∀ v, BunFile.exists_ (disk path) = Normal true →
        BunFile.json (disk path) = Normal v →
        loadConfigFile disk path opened = (Normal v, opened ++ [path])) ∧
  (BunFile.exists_ (disk path) ≠ Normal true ∨ BunFile.json (disk path) = Throw →
   loadConfigFile disk path opened = (Normal VUndefined, opened ++ [path])).
Proof.
  rewrite loadConfigFile_run. unfold layer_at. split.
  - by intros v -> ->.
  - intros [Hex|Hjs].
    + by destruct (BunFile.exists_ (disk path)) as [[]|].
    + rewrite Hjs. by destruct (BunFile.exists_ (disk path)) as [[]|].
Qed.

Lemma loadConfigFile_outcomes_witness :
  loadConfigFile broken_disk "/work/.opencode/notification.json" []
  = (Normal VUndefined, ["/work/.opencode/notification.json"]) ∧
  loadConfigFile only_project_disk "/work/.opencode/notification.json" []
  = (Normal (VObject [("enabled", VBool false)]), ["/work/.opencode/notification.json"]).
Proof.
  split.
  - apply (proj2 (loadConfigFile_outcomes broken_disk
                    "/work/.opencode/notification.json" [])).
    left. discriminate.
  - apply (proj1 (loadConfigFile_outcomes only_project_disk
                    "/work/.opencode/notification.json" [])); reflexivity.
Defined.

Lemma apply_layer_run {S} config layer (k : value → prog S value) :
  readable_config config →
  ((if truthy layer then lift (mergeConfig config layer) else mret config) ≫= k)
  = k (apply_layer config layer).
Proof.
  intros Hc. unfold apply_layer. destruct (truthy layer) eqn:Ht.
  - rewrite mergeConfig_merged by (done || by apply truthy_not_nullish).
    apply bind_lift.
  - apply bind_mret.
Qed.

Lemma apply_layer_readable config layer :
  readable_config config → readable_config (apply_layer config layer).
Proof.
  intros Hc. unfold apply_layer. destruct (truthy layer); [apply merged_readable | done].
Qed.

Lemma apply_layer_overlay c l :
  apply_layer (config_value c) (layer_value l) = config_value (overlay c l).
Proof.
  pose proof (mergeConfig_overlay c l) as H.
  rewrite mergeConfig_merged in H by (done || apply config_value_readable).
  change (merged (config_value c) (layer_value l) = config_value (overlay c l)).
  congruence.
Qed.

(** What [loadConfig] of [internals.ts] computes. *)
Lemma Internals_loadConfig_run homedir disk directory opened :
  Internals.loadConfig homedir disk directory opened =
  (Normal
     (apply_layer
        (apply_layer (config_value DEFAULT_CONFIG)
           (layer_at disk (Internals.getGlobalConfigDir homedir +:+ "/notification.json")))
        (layer_at disk (directory +:+ "/.opencode/notification.json"))),
   opened ++ [Internals.getGlobalConfigDir homedir +:+ "/notification.json";
              directory +:+ "/.opencode/notification.json"]).
Proof.
  unfold Internals.loadConfig.
  destruct (String.eqb_spec
              (Internals.getGlobalConfigDir homedir +:+ "/notification.json") "")
    as [He|_]; [by apply Internals_global_dir_not_empty in He|].
  rewrite (bind_run _ _ _ _ _ (loadConfigFile_run _ _ _)).
  rewrite (bind_run _ _ _ _ _ (loadConfigFile_run _ _ _)).
  rewrite apply_layer_run by apply config_value_readable.
  rewrite apply_layer_run by (apply apply_layer_readable, config_value_readable).
  by rewrite <- (assoc_L (++)).
Qed.

(** What [loadConfig] of the self-contained [index.ts] computes, once the
    client has resolved a directory. *)
Lemma Index_loadConfig_run client globalDir disk directory opened :
  Index.getGlobalConfigDir client = Normal globalDir → globalDir ≠ "" →
  Index.loadConfig client disk directory opened =
  (Normal
     (apply_layer
        (apply_layer (config_value DEFAULT_CONFIG)
           (layer_at disk (globalDir +:+ "/notification.json")))
        (layer_at disk (directory +:+ "/.opencode/notification.json"))),
   opened ++ [globalDir +:+ "/notification.json";
              directory +:+ "/.opencode/notification.json"]).
Proof.
  intros Hdir Hne. unfold Index.loadConfig. rewrite Hdir, bind_lift.
  apply String.eqb_neq in Hne. rewrite Hne.
  destruct (String.eqb_spec (globalDir +:+ "/notification.json") "") as [He|_].
  { apply String.eqb_neq in Hne. by destruct globalDir. }
  rewrite (bind_run _ _ _ _ _ (loadConfigFile_run _ _ _)).
  rewrite (bind_run _ _ _ _ _ (loadConfigFile_run _ _ _)).
  rewrite apply_layer_run by apply config_value_readable.
  rewrite apply_layer_run by (apply apply_layer_readable, config_value_readable).
  by rewrite <- (assoc_L (++)).
Qed.

(** X9.  [loadConfig] never throws, whatever the two files hold (any JSON
    document, [null] included) and however reading them fails; what it
    returns has the shape of a configuration, so that a later
    [mergeConfig] or the event handler can read it. *)
Theorem Internals_loadConfig_never_throws (homedir : string) (disk : string → BunFile.t)
    (directory : string) (opened : list string) :
  ∃ config,
    (Internals.loadConfig homedir disk directory opened).1 = Normal config ∧
    readable_config config ∧
    map fst (own_entries config) = ["enabled"; "itermIntegrationEnabled"; "events"].
Proof.
  rewrite Internals_loadConfig_run. eexists. split; [reflexivity|].
  split; [apply apply_layer_readable, apply_layer_readable, config_value_readable|].
  unfold apply_layer.
  by destruct (truthy (layer_at disk (directory +:+ _))), (truthy (layer_at disk _)).
Qed.

(** X10.  Layers that cannot be used contribute nothing: when each of the
    two files is missing, unreadable, unparsable or holds a falsy document
    ([null], [false], [0], the empty string), [loadConfig] returns exactly
    the built-in defaults. *)
Theorem Internals_loadConfig_defaults (homedir : string) (disk : string → BunFile.t)
    (directory : string) (opened : list string) :
  truthy (layer_at disk (Internals.getGlobalConfigDir homedir +:+ "/notification.json"))
    = false →
  truthy (layer_at disk (directory +:+ "/.opencode/notification.json")) = false →
  (Internals.loadConfig homedir disk directory opened).1
  = Normal (config_value DEFAULT_CONFIG).
Proof.
  intros Hg Hp. rewrite Internals_loadConfig_run. unfold apply_layer.
  by rewrite Hg, Hp.
Qed.

Lemma Internals_loadConfig_defaults_witness :
  (Internals.loadConfig "/home/u" broken_disk "/work" []).1
  = Normal (config_value DEFAULT_CONFIG) ∧
  (Internals.loadConfig "/home/u"
     (two_file_disk "/home/u/.config/opencode/notification.json"
        "/work/.opencode/notification.json" VNull (VNumber (integer 0))) "/work" []).1
  = Normal (config_value DEFAULT_CONFIG).
Proof.
  split; apply Internals_loadConfig_defaults; reflexivity.
Defined.

(** X11.  Precedence through the files: when the global file holds the
    typed layer G and the project file the typed layer P, [loadConfig]
    returns the defaults overlaid with G and then with P, so P wins over G
    and G over the defaults, field by field. *)
Theorem Internals_loadConfig_typed_layers (homedir : string) (disk : string → BunFile.t)
    (directory : string) (opened : list string) (g p : ConfigLayer.t) :
  layer_at disk (Internals.getGlobalConfigDir homedir +:+ "/notification.json")
    = layer_value g →
  layer_at disk (directory +:+ "/.opencode/notification.json") = layer_value p →
  (Internals.loadConfig homedir disk directory opened).1
  = Normal (config_value (overlay (overlay DEFAULT_CONFIG g) p)).
Proof.
  intros Hg Hp. rewrite Internals_loadConfig_run, Hg, Hp.
  by rewrite !apply_layer_overlay.
Qed.

Lemma Internals_loadConfig_typed_layers_witness :
  (Internals.loadConfig "/home/u"
     (two_file_disk "/home/u/.config/opencode/notification.json"
        "/work/.opencode/notification.json"
        (layer_value iterm_off_layer) (layer_value (idle_message_layer "Done")))
     "/work" []).1
  = Normal (config_value
              (overlay (overlay DEFAULT_CONFIG iterm_off_layer)
                       (idle_message_layer "Done"))).
Proof.
  apply Internals_loadConfig_typed_layers; reflexivity.
Defined.

(** X12.  The two variants agree: when the client resolves the global
    directory to what [internals.ts] derives from the home directory, the
    [loadConfig] of [index.ts] returns the same configuration and opens
    the same files in the same order as the one of [internals.ts], and the
    two [ensureGlobalConfig] act alike on the file system. *)
Theorem variants_agree (client : Client.t) (homedir : string) :
  Index.getGlobalConfigDir client = Normal (Internals.getGlobalConfigDir homedir) →
  (∀ disk directory opened,
     Index.loadConfig client disk directory opened =
     Internals.loadConfig homedir disk directory opened) ∧
  (∀ env fs,
     Index.ensureGlobalConfig client env fs = Internals.ensureGlobalConfig homedir env fs).
Proof.
  intros Hdir.
  assert (Hne : Internals.getGlobalConfigDir homedir ≠ "").
  { unfold Internals.getGlobalConfigDir. by destruct homedir. }
  split.
  - intros disk directory opened.
    by rewrite (Index_loadConfig_run _ _ _ _ _ Hdir Hne), Internals_loadConfig_run.
  - intros env fs. unfold Index.ensureGlobalConfig, Internals.ensureGlobalConfig.
    rewrite Hdir, bind_lift. apply String.eqb_neq in Hne. by rewrite Hne.
Qed.

Lemma variants_agree_witness :
  Index.loadConfig home_client only_project_disk "/work" []
  = Internals.loadConfig "/home/u" only_project_disk "/work" [].
Proof.
  apply (proj1 (variants_agree home_client "/home/u" eq_refl)).
Defined.

(** X13.  In the self-contained [index.ts] the client is asked outside any
    [try]: when [client.path.get()] rejects, both [ensureGlobalConfig] and
    [loadConfig] reject too, before touching the file system or opening a
    file. *)
Theorem Index_client_rejection_propagates (client : Client.t) :
  Client.path_get client = Throw →
  (∀ env fs, Index.ensureGlobalConfig client env fs = (Throw, fs)) ∧
  (∀ disk directory opened,
     Index.loadConfig client disk directory opened = (Throw, opened)).
Proof.
  intros Hget.
  assert (Hdir : Index.getGlobalConfigDir client = Throw).
  { unfold Index.getGlobalConfigDir. by rewrite Hget. }
  split; intros; unfold Index.ensureGlobalConfig, Index.loadConfig; by rewrite Hdir.
Qed.

Lemma Index_client_rejection_propagates_witness :
  Index.loadConfig rejecting_client only_project_disk "/work" [] = (Throw, []).
Proof.
  apply (proj2 (Index_client_rejection_propagates rejecting_client eq_refl)).
Defined.

(** X14.  In the self-contained [index.ts], when the client resolves no
    directory (no data, no [config], or the empty string),
    [ensureGlobalConfig] returns at once: no call reaches the file system,
    whatever those calls would have done. *)
Theorem Index_ensureGlobalConfig_without_directory (client : Client.t)
    (response : PathInfo.t) (env : Fs.faults) (fs : Fs.t) :
  Client.path_get client = Normal response →
  match PathInfo.data response ≫= PathInfo.config with
  | Some dir => dir = ""
  | None => True
  end →
  Index.ensureGlobalConfig client env fs = (Normal (), fs).
Proof.
  intros Hget Hdir. unfold Index.ensureGlobalConfig, Index.getGlobalConfigDir.
  rewrite Hget. simpl.
  destruct (PathInfo.data response ≫= PathInfo.config) as [dir|]; [|done].
  by rewrite Hdir.
Qed.

Lemma Index_ensureGlobalConfig_without_directory_witness :
  Index.ensureGlobalConfig no_config_dir_client Fs.no_faults empty_fs
  = (Normal (), empty_fs).
Proof.
  apply (Index_ensureGlobalConfig_without_directory no_config_dir_client
           {| PathInfo.data := None |}); reflexivity.
Defined.

(** ** [ensureGlobalConfig], beyond its postcondition *)

Lemma ensure_body_present env dir text fs :
  is_Some (Fs.files fs !! (dir +:+ "/notification.json")) →
  try_catch
    (found ← Fs.file_exists env (dir +:+ "/notification.json");
     if found : bool then mret ()
     else
       _ ← Fs.mkdir_recursive env dir;
       Fs.write env (dir +:+ "/notification.json") text)
    (mret ()) fs
  = (Normal (), fs).
Proof.
  intros Hthere.
  unfold try_catch, mbind, prog_bind, Fs.file_exists.
  rewrite bool_decide_eq_true_2 by done.
  by destruct (Fs.exists_throws env).
Qed.

Lemma ensure_body_creates dir text fs :
  is_Some
    (Fs.files
       (try_catch
          (found ← Fs.file_exists Fs.no_faults (dir +:+ "/notification.json");
           if found : bool then mret ()
           else
             _ ← Fs.mkdir_recursive Fs.no_faults dir;
             Fs.write Fs.no_faults (dir +:+ "/notification.json") text)
          (mret ()) fs).2
     !! (dir +:+ "/notification.json")).
Proof.
  unfold try_catch, mbind, prog_bind, Fs.file_exists, Fs.mkdir_recursive, Fs.write.
  destruct (Fs.files fs !! (dir +:+ "/notification.json")) as [old|] eqn:Hfile.
  - rewrite bool_decide_eq_true_2 by done. simpl. by rewrite Hfile.
  - rewrite bool_decide_eq_false_2 by (by intros [? ?]).
    simpl. rewrite lookup_insert_eq. by eexists.
Qed.

(** X15.  Once [ensureGlobalConfig] has run without a failure, running it
    again changes nothing and does not throw, whether or not the calls of
    the second run fail: the file is there, so it is never rewritten. *)
Theorem ensureGlobalConfig_settles (homedir : string) (env : Fs.faults) (fs : Fs.t) :
  let fs1 := (Internals.ensureGlobalConfig homedir Fs.no_faults fs).2 in
  Internals.ensureGlobalConfig homedir env fs1 = (Normal (), fs1).
Proof.
  intros fs1. subst fs1. unfold Internals.ensureGlobalConfig.
  apply ensure_body_present, ensure_body_creates.
Qed.

(** X16.  [ensureGlobalConfig] only ever adds: every file that was there
    keeps its content, every directory stays, and in [internals.ts] no path
    other than {globalDir}/notification.json is touched.  This holds under
    any failure of the calls and, in the client-based variant, for any
    answer of the client. *)
Theorem ensureGlobalConfig_frame (env : Fs.faults) (fs : Fs.t) :
  (∀ homedir,
     let fs' := (Internals.ensureGlobalConfig homedir env fs).2 in
     (∀ p, p ≠ Internals.getGlobalConfigDir homedir +:+ "/notification.json" →
           Fs.files fs' !! p = Fs.files fs !! p) ∧
     preserved fs fs') ∧
  (∀ client, preserved fs (Index.ensureGlobalConfig client env fs).2).
Proof.
  split.
  - intros homedir. apply ensure_body_frame.
  - intros client. unfold Index.ensureGlobalConfig.
    destruct (Index.getGlobalConfigDir client) as [dir|]; [|by split].
    rewrite bind_lift. destruct (String.eqb dir ""); [by split|].
    apply ensure_body_frame.
Qed.

Lemma ensureGlobalConfig_frame_witness :
  Fs.files (Internals.ensureGlobalConfig "/home/u" Fs.no_faults one_file_fs).2
    !! "/home/u/notes.txt" = Some "keep me".
Proof.
  apply (proj1 (proj2 (proj1 (ensureGlobalConfig_frame Fs.no_faults one_file_fs)
                         "/home/u"))).
  reflexivity.
Defined.

(** ** [notify] and the handler, case by case *)

Lemma notify_run env options w :
  notify env options w =
  match to_string (NotifyOptions.title options),
        to_string (NotifyOptions.message options) with
  | Normal title, Normal message =>
      (if truthy (NotifyOptions.itermIntegrationEnabled options) && isITerm2 env
       then stdout_write (ESC +:+ "]9;" +:+ (title +:+ " - " +:+ message) +:+ BEL)
       else stdout_write BEL) w
  | _, _ => (Throw, w)
  end.
Proof.
  unfold notify.
  destruct (to_string (NotifyOptions.title options)); [|reflexivity].
  destruct (to_string (NotifyOptions.message options)); reflexivity.
Qed.

Lemma notify_outcome env options w :
  notify env options w = (Throw, w) ∨
  ∃ text, notify env options w = (Normal (), wrote w text).
Proof.
  rewrite notify_run.
  destruct (to_string (NotifyOptions.title options)); [|by left].
  destruct (to_string (NotifyOptions.message options)); [|by left].
  right. destruct (_ && _); by eexists.
Qed.

(** X17.  When its title and message convert to strings, [notify]
    returns normally after exactly one write, and what it writes ends with
    the bell byte, on both channels and whatever the flag holds.  When
    either conversion throws (an object with a [toString] key of its own),
    [notify] throws before writing anything. *)
Theorem notify_one_write_ending_in_bell (env : gmap string string)
    (options : NotifyOptions.t) (w : World.t) :
  (∀ title message,
     to_string (NotifyOptions.title options) = Normal title →
     to_string (NotifyOptions.message options) = Normal message →
     ∃ body, notify env options w = (Normal (), wrote w (body +:+ String "007" ""))) ∧
  (to_string (NotifyOptions.title options) = Throw
   ∨ to_string (NotifyOptions.message options) = Throw →
   notify env options w = (Throw, w)).
Proof.
  rewrite notify_run. split.
  - intros title message -> ->. destruct (_ && _).
    + exists (ESC +:+ "]9;" +:+ title +:+ " - " +:+ message).
      unfold stdout_write, wrote, BEL. by rewrite !append_assoc.
    + by exists "".
  - intros [->| ->]; [done|].
    by destruct (to_string (NotifyOptions.title options)).
Qed.

Lemma notify_one_write_ending_in_bell_witness :
  notify iterm_env
    {| NotifyOptions.title := VString "OpenCode";
       NotifyOptions.message := VArray [VString "a"; VNull; VBool true];
       NotifyOptions.itermIntegrationEnabled := VString "yes" |} fresh_world
  = (Normal (),
     wrote fresh_world (String "027" ("]9;OpenCode - a,,true" +:+ String "007" ""))) ∧
  notify iterm_env
    {| NotifyOptions.title := VString "OpenCode";
       NotifyOptions.message := unprintable;
       NotifyOptions.itermIntegrationEnabled := VBool false |} fresh_world
  = (Throw, fresh_world).
Proof.
  split.
  - destruct (proj1 (notify_one_write_ending_in_bell iterm_env
                       {| NotifyOptions.title := VString "OpenCode";
                          NotifyOptions.message := VArray [VString "a"; VNull; VBool true];
                          NotifyOptions.itermIntegrationEnabled := VString "yes" |}
                       fresh_world) "OpenCode" "a,,true" eq_refl eq_refl) as [body Hbody].
    reflexivity.
  - apply (proj2 (notify_one_write_ending_in_bell iterm_env
                    {| NotifyOptions.title := VString "OpenCode";
                       NotifyOptions.message := unprintable;
                       NotifyOptions.itermIntegrationEnabled := VBool false |}
                    fresh_world)).
    right. reflexivity.
Defined.

Lemma bind_throw {S A B} (k : A → prog S B) s : (lift (@Throw A) ≫= k) s = (Throw, s).
Proof. reflexivity. Qed.

Lemma coalesce_get_object props k d :
  coalesce (get (VObject props) k) (mret d) =
  Normal (if nullish (prop (VObject props) k) then d else prop (VObject props) k).
Proof.
  unfold coalesce, get, prop. simpl.
  by destruct (nullish (default VUndefined (own k props))).
Qed.

Section HandlerCases.

Context (client : Client.t) (env : gmap string string).

Implicit Types (c : NotificationConfig.t) (event : Event.t) (w : World.t).

Lemma title_lookup_total id w :
  ∃ t,
    try_catch
      (response ← client_session_get client id;
       mret (default "Session" (response_title response)))
      (mret "Session") w
    = (Normal t, asked w id).
Proof.
  unfold try_catch, mbind, prog_bind, client_session_get.
  destruct (Client.session_get client id) as [response|]; by eexists.
Qed.

Lemma title_lookup_found id w response t :
  Client.session_get client id = Normal response →
  response_title response = Some t →
  try_catch
    (response ← client_session_get client id;
     mret (default "Session" (response_title response)))
    (mret "Session") w
  = (Normal t, asked w id).
Proof.
  intros Hget Ht. unfold try_catch, mbind, prog_bind, client_session_get.
  by rewrite Hget, Ht.
Qed.

Lemma handler_idle_run c event w t :
  Event.type event = "session.idle" →
  NotificationConfig.enabled c = true →
  NotificationEventConfig.enabled (event_of c SessionIdle) = true →
  try_catch
    (response ← client_session_get client
                  (prop (VObject (Event.properties event)) "sessionID");
     mret (default "Session" (response_title response)))
    (mret "Session") w
  = (Normal t, asked w (prop (VObject (Event.properties event)) "sessionID")) →
  event_handler client env (config_value c) event w =
  notify env
    {| NotifyOptions.title := VString "OpenCode";
       NotifyOptions.message :=
         VString (NotificationEventConfig.message (event_of c SessionIdle)
                  +:+ ": " +:+ t);
       NotifyOptions.itermIntegrationEnabled :=
         VBool (NotificationConfig.itermIntegrationEnabled c) |}
    (asked w (prop (VObject (Event.properties event)) "sessionID")).
Proof.
  destruct c as [en it [[e1 m1] [e2 m2] [e3 m3]]], event as [ty ps].
  simpl. intros -> -> -> Htitle.
  unfold event_handler. cbn -[notify]. run_reads.
  erewrite bind_run by exact Htitle.
  by run_reads.
Qed.

Lemma handler_permission_run c event w d :
  Event.type event = "permission.updated" →
  NotificationConfig.enabled c = true →
  NotificationEventConfig.enabled (event_of c PermissionUpdated) = true →
  to_string (if nullish (prop (VObject (Event.properties event)) "title")
             then VString "Unknown"
             else prop (VObject (Event.properties event)) "title") = Normal d →
  event_handler client env (config_value c) event w =
  notify env
    {| NotifyOptions.title := VString "OpenCode";
       NotifyOptions.message :=
         VString (NotificationEventConfig.message (event_of c PermissionUpdated)
                  +:+ ": " +:+ d);
       NotifyOptions.itermIntegrationEnabled :=
         VBool (NotificationConfig.itermIntegrationEnabled c) |}
    w.
Proof.
  destruct c as [en it [[e1 m1] [e2 m2] [e3 m3]]], event as [ty ps].
  simpl. intros -> -> -> Hd. unfold prop in Hd. cbn in Hd.
  unfold event_handler. cbn -[notify]. run_reads.
  destruct (nullish (default VUndefined (own "title" ps)));
    rewrite (bind_lift (S := World.t)); run_reads.
  - by injection Hd as <-.
  - rewrite Hd. by run_reads.
Qed.

Lemma handler_permission_throw c event w :
  Event.type event = "permission.updated" →
  NotificationConfig.enabled c = true →
  NotificationEventConfig.enabled (event_of c PermissionUpdated) = true →
  to_string (if nullish (prop (VObject (Event.properties event)) "title")
             then VString "Unknown"
             else prop (VObject (Event.properties event)) "title") = Throw →
  event_handler client env (config_value c) event w = (Throw, w).
Proof.
  destruct c as [en it [[e1 m1] [e2 m2] [e3 m3]]], event as [ty ps].
  simpl. intros -> -> -> Hd. unfold prop in Hd. cbn in Hd.
  unfold event_handler. cbn -[notify]. run_reads.
  destruct (nullish (default VUndefined (own "title" ps))); [done|].
  rewrite (bind_lift (S := World.t)). run_reads.
  by rewrite Hd.
Qed.

Lemma handler_error_run c event w :
  Event.type event = "session.error" →
  NotificationConfig.enabled c = true →
  NotificationEventConfig.enabled (event_of c SessionError) = true →
  event_handler client env (config_value c) event w =
  notify env
    {| NotifyOptions.title := VString "OpenCode";
       NotifyOptions.message :=
         VString (NotificationEventConfig.message (event_of c SessionError));
       NotifyOptions.itermIntegrationEnabled :=
         VBool (NotificationConfig.itermIntegrationEnabled c) |}
    w.
Proof.
  destruct c as [en it [[e1 m1] [e2 m2] [e3 m3]]], event as [ty ps].
  simpl. intros -> -> ->.
  unfold event_handler. cbn -[notify]. by run_reads.
Qed.

(** Every run of the handler on a typed configuration leaves the world
    alone, or throws on a permission title that cannot be converted, or
    ends in one call of [notify], made with the configured flag, after at
    most the one lookup of a session.idle event. *)
Lemma handler_shape c event w :
  event_handler client env (config_value c) event w = (Normal (), w) ∨
  (event_handler client env (config_value c) event w = (Throw, w) ∧
   to_string (prop (VObject (Event.properties event)) "title") = Throw) ∨
  ∃ message w0,
    event_handler client env (config_value c) event w =
      notify env
        {| NotifyOptions.title := VString "OpenCode";
           NotifyOptions.message := VString message;
           NotifyOptions.itermIntegrationEnabled :=
             VBool (NotificationConfig.itermIntegrationEnabled c) |} w0 ∧
    (w0 = w ∧ Event.type event ≠ "session.idle" ∨
     w0 = asked w (prop (VObject (Event.properties event)) "sessionID") ∧
     Event.type event = "session.idle").
Proof.
  destruct (NotificationConfig.enabled c) eqn:Hen;
    [|left; by apply handler_master_switch].
  destruct (String.eqb_spec (Event.type event) "session.idle") as [Hi|Hi].
  { destruct (NotificationEventConfig.enabled (event_of c SessionIdle)) eqn:Hcat;
      [|left; by apply (handler_category_switch client env c SessionIdle)].
    destruct (title_lookup_total
                (prop (VObject (Event.properties event)) "sessionID") w) as [t Ht].
    right; right. eexists _, _. split; [by apply (handler_idle_run c event w t)|].
    by right. }
  destruct (String.eqb_spec (Event.type event) "permission.updated") as [Hp|Hp].
  { destruct (NotificationEventConfig.enabled (event_of c PermissionUpdated)) eqn:Hcat;
      [|left; by apply (handler_category_switch client env c PermissionUpdated)].
    destruct (to_string
                (if nullish (prop (VObject (Event.properties event)) "title")
                 then VString "Unknown"
                 else prop (VObject (Event.properties event)) "title")) as [d|] eqn:Hd.
    - right; right. eexists _, _.
      split; [by apply (handler_permission_run c event w d)|]. by left.
    - right; left. split; [by apply handler_permission_throw|].
      by destruct (nullish (prop (VObject (Event.properties event)) "title")). }
  destruct (String.eqb_spec (Event.type event) "session.error") as [He|He].
  { destruct (NotificationEventConfig.enabled (event_of c SessionError)) eqn:Hcat;
      [|left; by apply (handler_category_switch client env c SessionError)].
    right; right. eexists _, _. split; [by apply handler_error_run|]. by left. }
  left. by apply handler_unknown_type.
Qed.

End HandlerCases.

(** X18.  Permission events: with the plugin and the category enabled,
    the handler makes no lookup.  It takes as title the payload's [title],
    or 'Unknown' when the payload has none or holds [null]; an empty title
    is kept as it is.  When that title converts to the text d, it notifies
    with '{message}: d'; when the conversion throws (an object with a
    [toString] key of its own), the handler throws, having written
    nothing. *)
Theorem permission_detail (client : Client.t) (env : gmap string string)
    (c : NotificationConfig.t) (event : Event.t) (w : World.t) :
  Event.type event = "permission.updated" →
  NotificationConfig.enabled c = true →
  NotificationEventConfig.enabled (event_of c PermissionUpdated) = true →
  let title :=
    if nullish (prop (VObject (Event.properties event)) "title")
    then VString "Unknown"
    else prop (VObject (Event.properties event)) "title" in
  (∀ d, to_string title = Normal d →
        event_handler client env (config_value c) event w =
        notify env
          {| NotifyOptions.title := VString "OpenCode";
             NotifyOptions.message :=
               VString (NotificationEventConfig.message (event_of c PermissionUpdated)
                        +:+ ": " +:+ d);
             NotifyOptions.itermIntegrationEnabled :=
               VBool (NotificationConfig.itermIntegrationEnabled c) |}
          w) ∧
  (to_string title = Throw →
   event_handler client env (config_value c) event w = (Throw, w)).
Proof.
  intros Hty Hen Hcat title. split.
  - intros d Hd. by apply handler_permission_run.
  - intros Hd. by apply handler_permission_throw.
Qed.

Lemma permission_detail_witness :
  event_handler quiet_client iterm_env (config_value DEFAULT_CONFIG)
    (permission_event []) fresh_world
  = (Normal (),
     wrote fresh_world
       (String "027" ("]9;OpenCode - Permission needed: Unknown" +:+ String "007" ""))) ∧
  event_handler quiet_client iterm_env (config_value DEFAULT_CONFIG)
    (permission_event [("title", VString "")]) fresh_world
  = (Normal (),
     wrote fresh_world
       (String "027" ("]9;OpenCode - Permission needed: " +:+ String "007" ""))) ∧
  event_handler quiet_client iterm_env (config_value DEFAULT_CONFIG)
    (permission_event [("title", unprintable)]) fresh_world
  = (Throw, fresh_world).
Proof.
  split; [|split].
  - rewrite (proj1 (permission_detail quiet_client iterm_env DEFAULT_CONFIG
                      (permission_event []) fresh_world eq_refl eq_refl eq_refl)
               "Unknown" eq_refl).
    reflexivity.
  - rewrite (proj1 (permission_detail quiet_client iterm_env DEFAULT_CONFIG
                      (permission_event [("title", VString "")]) fresh_world
                      eq_refl eq_refl eq_refl)
               "" eq_refl).
    reflexivity.
  - apply (proj2 (permission_detail quiet_client iterm_env DEFAULT_CONFIG
                    (permission_event [("title", unprintable)]) fresh_world
                    eq_refl eq_refl eq_refl)).
    reflexivity.
Defined.

(** X19.  Session events with a title: with the plugin and the category
    enabled, when the lookup resolves with a non-empty title, the handler
    asks the client once, for the payload's [sessionID], and notifies with
    '{message}: {title}'. *)
Theorem idle_title (client : Client.t) (env : gmap string string)
    (c : NotificationConfig.t) (event : Event.t) (w : World.t)
    (response : SessionInfo.t) (t : string) :
  Event.type event = "session.idle" →
  NotificationConfig.enabled c = true →
  NotificationEventConfig.enabled (event_of c SessionIdle) = true →
  Client.session_get client (prop (VObject (Event.properties event)) "sessionID")
    = Normal response →
  SessionInfo.data response ≫= SessionInfo.title = Some t →
  t ≠ "" →
  event_handler client env (config_value c) event w =
  notify env
    {| NotifyOptions.title := VString "OpenCode";
       NotifyOptions.message :=
         VString (NotificationEventConfig.message (event_of c SessionIdle)
                  +:+ ": " +:+ t);
       NotifyOptions.itermIntegrationEnabled :=
         VBool (NotificationConfig.itermIntegrationEnabled c) |}
    (asked w (prop (VObject (Event.properties event)) "sessionID")).
Proof.
  intros Hty Hen Hcat Hget Ht Hne.
  apply handler_idle_run; try done.
  apply (title_lookup_found client _ w response t Hget).
  unfold response_title. rewrite Ht.
  apply String.eqb_neq in Hne. by rewrite Hne.
Qed.

Lemma idle_title_witness :
  event_handler (titled_client "Build") iterm_env (config_value DEFAULT_CONFIG)
    idle_event fresh_world
  = (Normal (),
     {| World.stdout :=
          [String "027" ("]9;OpenCode - Session completed: Build" +:+ String "007" "")];
        World.lookups := [VString "s1"] |}).
Proof.
  rewrite (idle_title (titled_client "Build") iterm_env DEFAULT_CONFIG idle_event
             fresh_world
             {| SessionInfo.data := Some {| SessionInfo.title := Some "Build" |} |}
             "Build"); try reflexivity.
  discriminate.
Defined.

(** X20.  Error events: with the plugin and the category enabled, the
    handler makes no lookup and notifies with the category's message
    alone, without any ': detail' suffix. *)
Theorem error_message_only (client : Client.t) (env : gmap string string)
    (c : NotificationConfig.t) (event : Event.t) (w : World.t) :
  Event.type event = "session.error" →
  NotificationConfig.enabled c = true →
  NotificationEventConfig.enabled (event_of c SessionError) = true →
  event_handler client env (config_value c) event w =
  notify env
    {| NotifyOptions.title := VString "OpenCode";
       NotifyOptions.message :=
         VString (NotificationEventConfig.message (event_of c SessionError));
       NotifyOptions.itermIntegrationEnabled :=
         VBool (NotificationConfig.itermIntegrationEnabled c) |}
    w.
Proof. apply handler_error_run. Qed.

Lemma error_message_only_witness :
  event_handler quiet_client iterm_env (config_value DEFAULT_CONFIG)
    error_event fresh_world
  = (Normal (),
     wrote fresh_world
       (String "027" ("]9;OpenCode - Error occurred" +:+ String "007" ""))).
Proof.
  rewrite (error_message_only quiet_client iterm_env DEFAULT_CONFIG error_event
             fresh_world); reflexivity.
Defined.

(** X21.  For every typed configuration, every behaviour of the client
    and every event whose payload title, if it has one, converts to a
    string, the handler returns normally, writes at most one string to
    standard output and asks the client at most once. *)
Theorem handler_never_throws (client : Client.t) (env : gmap string string)
    (c : NotificationConfig.t) (event : Event.t) (w : World.t) :
  (∃ text, to_string (prop (VObject (Event.properties event)) "title") = Normal text) →
  ∃ w',
    event_handler client env (config_value c) event w = (Normal (), w') ∧
    (World.stdout w' = World.stdout w ∨
     ∃ text, World.stdout w' = World.stdout w ++ [text]) ∧
    (World.lookups w' = World.lookups w ∨
     ∃ id, World.lookups w' = World.lookups w ++ [id]).
Proof.
  intros [title Htitle].
  destruct (handler_shape client env c event w)
    as [Hquiet|[[_ Hthrow]|(message & w0 & Hrun & Hw0)]].
  - exists w. split; [done|]. split; by left.
  - congruence.
  - destruct (notify_writes_once env "OpenCode" message
                (VBool (NotificationConfig.itermIntegrationEnabled c)) w0)
      as [text Htext].
    exists (wrote w0 text). split; [by rewrite Hrun|].
    destruct Hw0 as [[-> _]|[-> _]]; simpl.
    + split; [right; by eexists | by left].
    + split; right; by eexists.
Qed.

Lemma handler_never_throws_witness :
  ∃ w',
    event_handler quiet_client iterm_env (config_value DEFAULT_CONFIG)
      (permission_event [("title", VArray [VString "read"; VString "write"])])
      fresh_world
    = (Normal (), w') ∧
    World.stdout w' =
      [String "027" ("]9;OpenCode - Permission needed: read,write" +:+ String "007" "")].
Proof.
  destruct (handler_never_throws quiet_client iterm_env DEFAULT_CONFIG
              (permission_event [("title", VArray [VString "read"; VString "write"])])
              fresh_world) as (w' & Hrun & _).
  - by exists "read,write".
  - exists w'. split; [exact Hrun|].
    injection Hrun as <-. reflexivity.
Defined.

(** X22.  The client is asked about a session only for session.idle
    events: an event of any other type leaves the lookups as they were,
    and an enabled session.idle event adds exactly one, for the
    [sessionID] of its payload. *)
Theorem lookups_only_for_idle (client : Client.t) (env : gmap string string)
    (c : NotificationConfig.t) (event : Event.t) (w : World.t) :
  (Event.type event ≠ "session.idle" →
   World.lookups (event_handler client env (config_value c) event w).2
   = World.lookups w) ∧
  (Event.type event = "session.idle" →
   NotificationConfig.enabled c = true →
   NotificationEventConfig.enabled (event_of c SessionIdle) = true →
   World.lookups (event_handler client env (config_value c) event w).2
   = World.lookups w ++ [prop (VObject (Event.properties event)) "sessionID"]).
Proof.
  split.
  - intros Hty.
    destruct (handler_shape client env c event w)
      as [->|[[-> _]|(message & w0 & -> & [[-> _]|[_ Hidle]])]]; [done|done| |done].
    destruct (notify_writes_once env "OpenCode" message
                (VBool (NotificationConfig.itermIntegrationEnabled c)) w)
      as [text ->].
    done.
  - intros Hty Hen Hcat.
    destruct (title_lookup_total client
                (prop (VObject (Event.properties event)) "sessionID") w) as [t Ht].
    rewrite (handler_idle_run client env c event w t Hty Hen Hcat Ht).
    destruct (notify_writes_once env "OpenCode"
                (NotificationEventConfig.message (event_of c SessionIdle) +:+ ": " +:+ t)
                (VBool (NotificationConfig.itermIntegrationEnabled c))
                (asked w (prop (VObject (Event.properties event)) "sessionID")))
      as [text ->].
    done.
Qed.

Lemma lookups_only_for_idle_witness :
  World.lookups
    (event_handler (titled_client "Build") iterm_env (config_value DEFAULT_CONFIG)
       (permission_event [("sessionID", VString "s1")]) fresh_world).2 = [] ∧
  World.lookups
    (event_handler (titled_client "Build") iterm_env (config_value DEFAULT_CONFIG)
       idle_event fresh_world).2 = [VString "s1"].
Proof.
  split.
  - apply (proj1 (lookups_only_for_idle (titled_client "Build") iterm_env
                    DEFAULT_CONFIG (permission_event [("sessionID", VString "s1")])
                    fresh_world)).
    discriminate.
  - apply (proj2 (lookups_only_for_idle (titled_client "Build") iterm_env
                    DEFAULT_CONFIG idle_event fresh_world)); reflexivity.
Defined.

(** X23.  With [itermIntegrationEnabled] false in the effective
    configuration, the composed message never reaches the terminal: for
    every event and every environment, iTerm2 included, the handler writes
    either nothing or the single bell byte. *)
Theorem integration_disabled_bell_only (client : Client.t) (env : gmap string string)
    (c : NotificationConfig.t) (event : Event.t) (w : World.t) :
  NotificationConfig.itermIntegrationEnabled c = false →
  World.stdout (event_handler client env (config_value c) event w).2 = World.stdout w ∨
  World.stdout (event_handler client env (config_value c) event w).2
  = World.stdout w ++ [String "007" ""].
Proof.
  intros Hoff.
  destruct (handler_shape client env c event w)
    as [->|[[-> _]|(message & w0 & -> & Hw0)]]; [by left|by left|].
  right. rewrite Hoff, notify_strings. simpl.
  by destruct Hw0 as [[-> _]|[-> _]].
Qed.

Lemma integration_disabled_bell_only_witness :
  World.stdout
    (event_handler (titled_client "Build") iterm_env
       (config_value (overlay DEFAULT_CONFIG iterm_off_layer)) idle_event fresh_world).2
  = [String "007" ""].
Proof.
  destruct (integration_disabled_bell_only (titled_client "Build") iterm_env
              (overlay DEFAULT_CONFIG iterm_off_layer) idle_event fresh_world eq_refl)
    as [H|H].
  - discriminate H.
  - exact H.
Defined.

(** ** The handler on whatever [loadConfig] returns *)

Lemma apply_layer_shape config layer :
  (∃ e i o1 o2 o3, config = config_shape e i o1 o2 o3) →
  ∃ e i o1 o2 o3, apply_layer config layer = config_shape e i o1 o2 o3.
Proof.
  intros Hc. unfold apply_layer. destruct (truthy layer); [|done].
  unfold merged, merged_event, config_shape. by eexists _, _, _, _, _.
Qed.

Lemma config_value_shape c : ∃ e i o1 o2 o3, config_value c = config_shape e i o1 o2 o3.
Proof. unfold config_value, event_value, config_shape. by eexists _, _, _, _, _. Qed.

(** On any object of configuration shape the handler writes at most one
    string, and never when it throws. *)
Lemma handler_outcome_on_shape client env e i o1 o2 o3 event w :
  ∃ r w',
    event_handler client env (config_shape e i o1 o2 o3) event w = (r, w') ∧
    (World.stdout w' = World.stdout w ∨
     r = Normal () ∧ ∃ text, World.stdout w' = World.stdout w ++ [text]).
Proof.
  assert (Hnotify : ∀ options w0,
            World.stdout w0 = World.stdout w →
            ∃ r w',
              notify env options w0 = (r, w') ∧
              (World.stdout w' = World.stdout w ∨
               r = Normal () ∧ ∃ text, World.stdout w' = World.stdout w ++ [text])).
  { intros options w0 Hw0.
    destruct (notify_outcome env options w0) as [->|[text ->]].
    - eexists _, _. split; [done|]. by left.
    - eexists _, _. split; [done|]. right. split; [done|].
      exists text. simpl. by rewrite Hw0. }
  assert (Hquiet : ∀ r,
            ∃ r' w', (r, w) = (r', w') ∧
              (World.stdout w' = World.stdout w ∨
               r' = Normal () ∧ ∃ text, World.stdout w' = World.stdout w ++ [text])).
  { intros r. eexists _, _. split; [done|]. by left. }
  destruct event as [ty ps].
  unfold event_handler, config_shape. cbn -[notify to_string]. run_reads.
  destruct (truthy e); cbn -[notify to_string]; [|apply Hquiet].
  destruct (String.eqb ty "session.idle").
  { repeat (rewrite bind_lift; cbn -[notify to_string]).
    destruct (truthy (default VUndefined (own "enabled" o1)));
      cbn -[notify to_string]; [|apply Hquiet].
    repeat (rewrite bind_lift; cbn -[notify to_string]).
    destruct (title_lookup_total client (default VUndefined (own "sessionID" ps)) w)
      as [t Ht].
    rewrite (bind_run _ _ _ _ _ Ht).
    repeat (rewrite bind_lift; cbn -[notify to_string]).
    destruct (to_string (default VUndefined (own "message" o1))) as [m|].
    - repeat (rewrite bind_lift; cbn -[notify to_string]). by apply Hnotify.
    - rewrite bind_throw. eexists _, _. split; [done|]. by left. }
  destruct (String.eqb ty "permission.updated").
  { repeat (rewrite bind_lift; cbn -[notify to_string]).
    destruct (truthy (default VUndefined (own "enabled" o2)));
      cbn -[notify to_string]; [|apply Hquiet].
    destruct (nullish (default VUndefined (own "title" ps)));
      rewrite (bind_lift (S := World.t));
      repeat (rewrite bind_lift; cbn -[notify to_string]).
    all: destruct (to_string (default VUndefined (own "message" o2))) as [m|];
      [|rewrite bind_throw; apply Hquiet].
    all: repeat (rewrite bind_lift; cbn -[notify to_string]).
    - change (to_string (VString "Unknown")) with (@Normal string "Unknown").
      repeat (rewrite bind_lift; cbn -[notify to_string]). by apply Hnotify.
    - destruct (to_string (default VUndefined (own "title" ps))) as [d|];
        [|rewrite bind_throw; apply Hquiet].
      repeat (rewrite bind_lift; cbn -[notify to_string]). by apply Hnotify. }
  destruct (String.eqb ty "session.error"); [|apply Hquiet].
  repeat (rewrite bind_lift; cbn -[notify to_string]).
  destruct (truthy (default VUndefined (own "enabled" o3)));
    cbn -[notify to_string]; [|apply Hquiet].
  repeat (rewrite bind_lift; cbn -[notify to_string]).
  by apply Hnotify.
Qed.

(** X24.  The gates test truthiness.  On any configuration object, when
    [enabled] holds a falsy value (false, but also 0, the empty string, or
    nothing at all) the handler does nothing for any event; and when a
    category's [enabled] is falsy or missing (null included) it does
    nothing for the events of that category. *)
Theorem falsy_switches_gate (client : Client.t) (env : gmap string string)
    (config : value) (event : Event.t) (w : World.t) :
  readable_config config →
  (truthy (prop config "enabled") = false →
   event_handler client env config event w = (Normal (), w)) ∧
  (∀ cat,
     Event.type event = category_key cat →
     truthy (at_path config ["events"; category_key cat; "enabled"]) = false →
     event_handler client env config event w = (Normal (), w)).
Proof.
  intros [Hc He]. split.
  - intros Hoff. unfold event_handler.
    rewrite (get_prop config "enabled") by done. rewrite bind_lift. by rewrite Hoff.
  - intros cat Hty Hoff. unfold event_handler.
    rewrite (get_prop config "enabled") by done. rewrite bind_lift.
    destruct (truthy (prop config "enabled")); [|done]. simpl negb. cbv iota.
    rewrite Hty. simpl in Hoff.
    destruct cat; simpl category_key in *.
    all: repeat match goal with
         | |- context [String.eqb ?a ?b] =>
             let r := eval vm_compute in (String.eqb a b) in
             change (String.eqb a b) with r
         end; cbv iota.
    all: rewrite (get_prop config "events") by done; rewrite bind_lift.
    all: rewrite (get_prop (prop config "events")) by done; rewrite bind_lift.
    all: rewrite get_opt_prop, bind_lift.
    all: by rewrite Hoff.
Qed.

Lemma falsy_switches_gate_witness :
  ∃ config,
    mergeConfig (config_value DEFAULT_CONFIG) (idle_enabled_document VNull)
      = Normal config ∧
    event_handler (titled_client "Build") iterm_env config idle_event fresh_world
      = (Normal (), fresh_world).
Proof.
  eexists. split; [reflexivity|].
  apply (proj2 (falsy_switches_gate (titled_client "Build") iterm_env
                  (merged (config_value DEFAULT_CONFIG) (idle_enabled_document VNull))
                  idle_event fresh_world (merged_readable _ _)) SessionIdle);
    reflexivity.
Defined.

(** X25.  From the files to the terminal: when the global file sets
    [itermIntegrationEnabled] to false and the project file leaves it out,
    the handler built on what [loadConfig] returns writes, for every event
    and in every environment, either nothing or the single bell byte. *)
Theorem global_layer_disables_integration (homedir : string) (disk : string → BunFile.t)
    (directory : string) (opened : list string) (g p : ConfigLayer.t)
    (client : Client.t) (env : gmap string string) (event : Event.t) (w : World.t) :
  layer_at disk (Internals.getGlobalConfigDir homedir +:+ "/notification.json")
    = layer_value g →
  layer_at disk (directory +:+ "/.opencode/notification.json") = layer_value p →
  ConfigLayer.itermIntegrationEnabled g = Some false →
  ConfigLayer.itermIntegrationEnabled p = None →
  ∃ config,
    (Internals.loadConfig homedir disk directory opened).1 = Normal config ∧
    (World.stdout (event_handler client env config event w).2 = World.stdout w ∨
     World.stdout (event_handler client env config event w).2
     = World.stdout w ++ [String "007" ""]).
Proof.
  intros Hg Hp Hgi Hpi.
  exists (config_value (overlay (overlay DEFAULT_CONFIG g) p)). split.
  - rewrite Internals_loadConfig_run, Hg, Hp. by rewrite !apply_layer_overlay.
  - destruct (handler_shape client env (overlay (overlay DEFAULT_CONFIG g) p) event w)
      as [->|[[-> _]|(message & w0 & -> & Hw0)]]; [by left|by left|].
    right. simpl NotificationConfig.itermIntegrationEnabled. rewrite Hgi, Hpi.
    rewrite notify_strings. simpl.
    by destruct Hw0 as [[-> _]|[-> _]].
Qed.

Lemma global_layer_disables_integration_witness :
  ∃ config,
    (Internals.loadConfig "/home/u"
       (two_file_disk "/home/u/.config/opencode/notification.json"
          "/work/.opencode/notification.json"
          (layer_value iterm_off_layer) (layer_value (idle_message_layer "Done")))
       "/work" []).1 = Normal config ∧
    World.stdout
      (event_handler (titled_client "Build") iterm_env config idle_event fresh_world).2
    = [String "007" ""].
Proof.
  destruct (global_layer_disables_integration "/home/u"
              (two_file_disk "/home/u/.config/opencode/notification.json"
                 "/work/.opencode/notification.json"
                 (layer_value iterm_off_layer) (layer_value (idle_message_layer "Done")))
              "/work" [] iterm_off_layer (idle_message_layer "Done")
              (titled_client "Build") iterm_env idle_event fresh_world
              eq_refl eq_refl eq_refl eq_refl) as (config & Hload & Hout).
  exists config. split; [exact Hload|].
  injection Hload as <-.
  destruct Hout as [H|H]; [discriminate H | exact H].
Defined.

(** X26.  Whatever the two configuration files hold and however reading
    them fails, [loadConfig] returns a configuration, and on it the
    handler, for every event and every behaviour of the client, writes at
    most one string to standard output; it can only throw while
    converting a message or a title to a string, and then it has written
    nothing. *)
Theorem plugin_fails_only_before_writing (homedir : string) (disk : string → BunFile.t)
    (directory : string) (opened : list string)
    (client : Client.t) (env : gmap string string) (event : Event.t) (w : World.t) :
  ∃ config r w',
    (Internals.loadConfig homedir disk directory opened).1 = Normal config ∧
    event_handler client env config event w = (r, w') ∧
    (World.stdout w' = World.stdout w ∨
     r = Normal () ∧ ∃ text, World.stdout w' = World.stdout w ++ [text]).
Proof.
  rewrite Internals_loadConfig_run.
  destruct (apply_layer_shape
              (apply_layer (config_value DEFAULT_CONFIG)
                 (layer_at disk
                    (Internals.getGlobalConfigDir homedir +:+ "/notification.json")))
              (layer_at disk (directory +:+ "/.opencode/notification.json")))
    as (e & i & o1 & o2 & o3 & Hshape).
  { apply apply_layer_shape, config_value_shape. }
  destruct (handler_outcome_on_shape client env e i o1 o2 o3 event w)
    as (r & w' & Hrun & Hout).
  eexists _, r, w'. split; [reflexivity|]. simpl. by rewrite Hshape.
Qed.

(** A project file whose error message is an object with a [toString] key
    does make the handler throw on a session.error event. *)
Example unprintable_message_throws :
  ∃ config,
    (Internals.loadConfig "/home/u"
       (two_file_disk "/home/u/.config/opencode/notification.json"
          "/work/.opencode/notification.json" VNull
          (VObject [("events",
                     VObject [("session.error", VObject [("message", unprintable)])])]))
       "/work" []).1 = Normal config ∧
    event_handler quiet_client iterm_env config error_event fresh_world
    = (Throw, fresh_world).
Proof. eexists. split; reflexivity. Qed.
